(** * bref-pulumi: the [Function] construct and the stack program

    A shallow embedding of [infrastructure/function/Function.ts] (the class
    that resolves bref layer names and declares one AWS Lambda function) and
    of the stack program that composes the VPC, the Aurora cluster, the
    Lambda role, the environment and the three applications.

    JavaScript objects are finite maps from property names to values, arrays
    live in a store and are passed by reference, a [throw] is an explicit
    completion, and a Pulumi [Output] is the state it settles in. *)

From Stdlib Require Import ZArith Lia Ascii String.
From stdpp Require Import gmap strings list fin_maps.

(** ** JavaScript values, objects, arrays and completions *)

Module Js.

(** How the evaluation of a block ends: normally with a value, or with
    [throw new Error(message)]. *)
Inductive completion (A : Type) : Type :=
| Normal (a : A)
| Throw (message : string).

Arguments Normal {A} a.
Arguments Throw {A} message.

(** The values an element of a layers array can hold: [undefined], a string,
    or the member of [Object.prototype] of the given name (the function
    [Object.prototype.toString], say, which is no string). *)
Inductive Value : Type :=
| VUndefined
| VString (s : string)
| VInherited (member : string).

(** The property names every object created by an object literal inherits
    from [Object.prototype]. *)
Definition Object_prototype : list string :=
  [ "constructor"; "__defineGetter__"; "__defineSetter__"; "hasOwnProperty";
    "__lookupGetter__"; "__lookupSetter__"; "isPrototypeOf";
    "propertyIsEnumerable"; "toString"; "valueOf"; "__proto__";
    "toLocaleString" ].

Definition inherited (k : string) : bool := bool_decide (k ∈ Object_prototype).

(** [k in o] for an object literal [o] with string-valued own properties: the
    operator walks the prototype chain, so inherited names count. *)
Definition has_property (o : gmap string string) (k : string) : bool :=
  match o !! k with
  | Some _ => true
  | None => inherited k
  end.

(** [o[k]]: the own property, else the inherited member, else [undefined]. *)
Definition get_property (o : gmap string string) (k : string) : Value :=
  match o !! k with
  | Some s => VString s
  | None => if inherited k then VInherited k else VUndefined
  end.

(** [s.replace('.', '')]: a string pattern replaces its first occurrence
    only. *)
Fixpoint replace_dot (s : string) : string :=
  match s with
  | EmptyString => EmptyString
  | String c rest =>
      if Ascii.eqb c "."%char then rest else String c (replace_dot rest)
  end.

(** Arrays are objects: a variable holds a reference, and two variables
    holding one reference see each other's [push]. The store maps a
    reference (an index) to the array's elements. *)
Definition ref : Type := nat.

Abbreviation store := (list (list Value)).

Definition read_array (h : store) (r : ref) : list Value := default [] (h !! r).

(** A computation over the store that may throw; what it wrote before the
    throw stays written. *)
Definition M (A : Type) : Type := store -> completion A * store.

Definition ret {A} (a : A) : M A := fun h => (Normal a, h).

Definition throw {A} (message : string) : M A := fun h => (Throw message, h).

Definition bind {A B} (m : M A) (k : A -> M B) : M B :=
  fun h =>
    match m h with
    | (Normal a, h') => k a h'
    | (Throw e, h') => (Throw e, h')
    end.

(** [[]] or any array literal: a fresh reference. *)
Definition alloc (elements : list Value) : M ref :=
  fun h => (Normal (length h), h ++ [elements]).

(** [a.push(v)] *)
Definition push (r : ref) (v : Value) : M unit :=
  fun h => (Normal tt, <[r := read_array h r ++ [v]]> h).

(** [[...a]]: the elements, copied. *)
Definition spread (r : ref) : M (list Value) :=
  fun h => (Normal (read_array h r), h).

(** A Pulumi [Output<T>] in the state it settles in: resolved with a value,
    or rejected with the error that a callback or the provider raised. *)
Inductive Output (A : Type) : Type :=
| Resolved (a : A)
| Rejected (message : string).

Arguments Resolved {A} a.
Arguments Rejected {A} message.

(** [pulumi.Output.create(a)] *)
Definition Output_create {A} (a : A) : Output A := Resolved a.

(** [o.apply(f)]: [f] runs on the resolved value; an [Output] or promise it
    returns is flattened, and a rejected source never runs [f]. *)
Definition apply {A B} (o : Output A) (f : A -> Output B) : Output B :=
  match o with
  | Resolved a => f a
  | Rejected e => Rejected e
  end.

(** A callback that returns a plain value or throws. *)
Definition settle {A} (c : completion A) : Output A :=
  match c with
  | Normal a => Resolved a
  | Throw e => Rejected e
  end.

(** [pulumi.all([a, b])] *)
Definition all {A B} (a : Output A) (b : Output B) : Output (A * B) :=
  match a, b with
  | Resolved x, Resolved y => Resolved (x, y)
  | Rejected e, _ => Rejected e
  | _, Rejected e => Rejected e
  end.

(** The values [JSON.parse] returns. *)
#[warnings="-register-all"]
Inductive Json : Type :=
| JNull
| JBool (b : bool)
| JNumber (n : Z)
| JString (s : string)
| JArray (elements : list Json)
| JObject (fields : list (string * Json)).

(** The last binding of [k] in the fields of a parsed object: a repeated key
    keeps its last value. *)
Fixpoint last_field (fields : list (string * Json)) (k : string) : option Json :=
  match fields with
  | [] => None
  | (k', v) :: rest =>
      match last_field rest k with
      | Some w => Some w
      | None => if String.eqb k' k then Some v else None
      end
  end.

(** [j.k] for a name [k] that no primitive wrapper or array defines:
    [null.k] throws a [TypeError], an object gives its field or [undefined]
    ([None]), every other value gives [undefined]. *)
Definition member (j : Json) (k : string) : completion (option Json) :=
  match j with
  | JNull => Throw ("Cannot read properties of null (reading '" ++ k ++ "')")
  | JObject fields => Normal (last_field fields k)
  | _ => Normal None
  end.

(** What a resource argument or an environment entry holds: a literal
    string, a literal number, an [Output<string>] of a resource, or an
    [Output] lifted from a parsed secret. *)
Inductive Input : Type :=
| Str (s : string)
| Num (n : Z)
| Out (o : Output string)
| OutAny (o : Output (option Json)).

(** [{...init, ...src}]: the properties of [init], then those of [src]
    written over them. *)
Definition object_spread {V} (init src : gmap string V) : gmap string V :=
  src ∪ init.

End Js.

Declare Scope js_scope.
Delimit Scope js_scope with js.
Notation "'let!' x ':=' m 'in' k" := (Js.bind m (fun x => k))
  (at level 10, x name, m at level 100, k at level 200) : js_scope.

(** ** The AWS provider's Lambda function resource *)

Module aws_lambda.

(** [new aws.lambda.Function(name, args)]: the declared resource is its
    logical name and its arguments. *)
Record Function : Type := {
  name : string;
  code : string;
  role : Js.Output string;
  handler : string;
  runtime : string;
  architectures : list string;
  environment : option (gmap string Js.Input);
  layers : list Js.Value;
  timeout : Z;
  memorySize : Z
}.

(** [aws.lambda.Runtime.CustomAL2] *)
Definition CustomAL2 : string := "provided.al2".

End aws_lambda.

(** ** infrastructure/function/Function.ts *)

Module functionDefaults.

Definition memorySize : Z := 1024.

Definition phpVersion : string := "8.2".

Definition architecture : string := "x86_64".

End functionDefaults.

Module FunctionTs.

Import Js.
Local Open Scope js_scope.

Definition phpLayer (phpVersion : string) : string :=
  "arn:aws:lambda:us-east-1:534081306603:layer:php-" ++ replace_dot phpVersion ++ ":68".

Definition consoleLayer : string :=
  "arn:aws:lambda:us-east-1:534081306603:layer:console:78".

Definition fpmLayer (phpVersion : string) : string :=
  "arn:aws:lambda:us-east-1:534081306603:layer:php-" ++ replace_dot phpVersion ++ "-fpm:68".

(** The object literal assigned to [this.brefLayers]. *)
Definition brefLayers_table (phpVersion : string) : gmap string string :=
  {[ "php" := phpLayer phpVersion;
     "console" := consoleLayer;
     "fpm" := fpmLayer phpVersion ]}.

(** The instance the constructor leaves behind. [layers] is a reference: the
    caller's own array when one was passed. *)
Record Function : Type := {
  name : string;
  roleArn : Output string;
  handler : string;
  environment : option (gmap string Input);
  layers : option ref;
  timeout : Z;
  memorySize : Z;
  code : string;
  lambda : aws_lambda.Function;
  brefLayers : gmap string string
}.

(** The loop [for (const layer of brefLayers)], threading [this.layers]. *)
Fixpoint resolve_layers (table : gmap string string) (requested : list string)
    (this_layers : option ref) : M (option ref) :=
  match requested with
  | [] => ret this_layers
  | layer :: rest =>
      let! r := match this_layers with
                | Some r => ret r
                | None => alloc []
                end in
      if negb (has_property table layer)
      then throw ("Layer " ++ layer ++ " not found in brefLayers")
      else let! _ := push r (get_property table layer) in
           resolve_layers table rest (Some r)
  end.

(** [new Function(name, code, roleArn, handler, environment, phpVersion,
    brefLayers, layers, timeout, memorySize)]; an argument with a default is
    [None] when the caller leaves it [undefined]. *)
Definition constructor (name code : string) (roleArn : Output string)
    (handler : string) (environment : option (gmap string Input))
    (phpVersion : option string) (brefLayers : option (list string))
    (layers : option ref) (timeout memorySize : option Z) : M Function :=
  let phpVersion := default functionDefaults.phpVersion phpVersion in
  let brefLayers := default [] brefLayers in
  let timeout := default 28%Z timeout in
  let memorySize := default functionDefaults.memorySize memorySize in
  let architecture := functionDefaults.architecture in
  let this_brefLayers := brefLayers_table phpVersion in
  let! this_layers := resolve_layers this_brefLayers brefLayers layers in
  let! lambda_layers := match this_layers with
                        | Some r => spread r
                        | None => ret []
                        end in
  ret {| name := name;
         roleArn := roleArn;
         handler := handler;
         environment := environment;
         layers := this_layers;
         timeout := timeout;
         memorySize := memorySize;
         code := code;
         lambda := {| aws_lambda.name := name;
                      aws_lambda.code := code;
                      aws_lambda.role := roleArn;
                      aws_lambda.handler := handler;
                      aws_lambda.runtime := aws_lambda.CustomAL2;
                      aws_lambda.architectures := [architecture];
                      aws_lambda.environment := environment;
                      aws_lambda.layers := lambda_layers;
                      aws_lambda.timeout := timeout;
                      aws_lambda.memorySize := memorySize |};
         brefLayers := this_brefLayers |}.

End FunctionTs.

(** ** The constructs the stack program imports

    [./vpc] and [./constructs] are not among the sources. Each class is the
    record of what the stack program passes to its constructor and of the
    members the program reads back; the values a provider only knows after
    provisioning come from [Cloud]. *)

Module Constructs.

Import Js.

(** The result of [aws.secretsmanager.getSecretVersion], as far as the
    program reads it; an absent [secretString] is [None]. *)
Record GetSecretVersionResult : Type := { secretString : option string }.

(** What the cloud answers: the outputs of the resources, the secret store's
    lookup, and [JSON.parse]. *)
Record Cloud : Type := {
  cloud_publicSubnetIds : Output (list string);
  cloud_vpcId : Output string;
  cloud_securityGroupId : Output string;
  cloud_secretArn : Output string;
  cloud_endpoint : Output string;
  cloud_clusterId : Output string;
  cloud_bucket : Output string;
  cloud_bucketId : Output string;
  getSecretVersion : string -> Output GetSecretVersionResult;
  JSON_parse : string -> completion Json
}.

(** [awsx.ec2.Vpc] *)
Record Vpc : Type := {
  publicSubnetIds : Output (list string);
  vpcId : Output string
}.

Record SimpleVpc : Type := {
  vpc_name : string;
  vpc_options : bool * bool * bool * Z * string;
  vpc : Vpc
}.

Definition new_SimpleVpc (cloud : Cloud) (name : string) (a b c : bool)
    (count : Z) (cidr : string) : SimpleVpc :=
  {| vpc_name := name;
     vpc_options := (a, b, c, count, cidr);
     vpc := {| publicSubnetIds := cloud_publicSubnetIds cloud;
               vpcId := cloud_vpcId cloud |} |}.

(** [aws.ec2.SecurityGroup], as far as the program reads it. *)
Record SecurityGroup : Type := { id : Output string }.

Record AuroraSecurityGroup : Type := {
  group_name : string;
  group_vpc : SimpleVpc;
  securityGroup : SecurityGroup
}.

Definition new_AuroraSecurityGroup (cloud : Cloud) (name : string)
    (network : SimpleVpc) : AuroraSecurityGroup :=
  {| group_name := name;
     group_vpc := network;
     securityGroup := {| id := cloud_securityGroupId cloud |} |}.

(** [aws.rds.Cluster], as far as the program reads it. *)
Record Cluster : Type := { cluster_id : Output string }.

Record AuroraServerless : Type := {
  aurora_name : string;
  aurora_vpc : SimpleVpc;
  aurora_group : AuroraSecurityGroup;
  auroraCluster : Cluster;
  endpoint : Output string;
  secretArn : Output string
}.

Definition new_AuroraServerless (cloud : Cloud) (name : string)
    (network : SimpleVpc) (group : AuroraSecurityGroup) : AuroraServerless :=
  {| aurora_name := name;
     aurora_vpc := network;
     aurora_group := group;
     auroraCluster := {| cluster_id := cloud_clusterId cloud |};
     endpoint := cloud_endpoint cloud;
     secretArn := cloud_secretArn cloud |}.

(** [aws.s3.Bucket] *)
Record Bucket : Type := {
  bucket_name : string;
  bucket : Output string;
  bucket_id : Output string
}.

Definition new_Bucket (cloud : Cloud) (name : string) : Bucket :=
  {| bucket_name := name;
     bucket := cloud_bucket cloud;
     bucket_id := cloud_bucketId cloud |}.

(** [new S3BucketPolicy(bucket).bucketPolicy] and [new VpcPolicy().vpcPolicy]. *)
Inductive Policy : Type :=
| bucketPolicy (b : Bucket)
| vpcPolicy.

Record LambdaRole : Type := {
  role_name : string;
  policies : list (string * Policy)
}.

Definition new_LambdaRole (name : string) : LambdaRole :=
  {| role_name := name; policies := [] |}.

Definition attached (role : LambdaRole) (name : string) : bool :=
  bool_decide (name ∈ (policies role).*1).

(** Modelled from the spec: [LambdaRole.addPolicy] is declared in
    [./constructs], which is not among the sources. The spec has the role
    accumulate named attachments in order, and attaching a name that is
    already attached must not duplicate it. *)
Definition addPolicy (role : LambdaRole) (name : string) (p : Policy) : LambdaRole :=
  if attached role name then role
  else {| role_name := role_name role; policies := policies role ++ [(name, p)] |}.

(** The three applications, as the arguments their constructors receive. *)
Record WebApp : Type := {
  web_name : string;
  web_code : string;
  web_role : LambdaRole;
  web_environment : gmap string Input;
  useOctane : option bool;
  web_subnetIds : list string;
  web_securityGroupIds : list string
}.

Record ConsoleApp : Type := {
  console_name : string;
  console_code : string;
  console_role : LambdaRole;
  console_environment : gmap string Input;
  console_subnetIds : list string;
  console_securityGroupIds : list string
}.

Record SqsWorker : Type := {
  worker_name : string;
  worker_code : string;
  worker_role : LambdaRole;
  worker_environment : gmap string Input;
  worker_subnetIds : list string;
  worker_securityGroupIds : list string
}.

End Constructs.

(** ** The stack program *)

Module Index.

Import Js Constructs.

(** [new pulumi.Config()]: [getBoolean] and [get] answer [undefined]
    ([None]) for a key that is not set. *)
Record Config : Type := {
  getBoolean : string -> option bool;
  get : string -> option string
}.

(** A [boolean | undefined] in a condition. *)
Definition truthy (b : option bool) : bool := default false b.

Record VpcConfig : Type := {
  subnetIds : list string;
  securityGroupIds : list string
}.

Record Credentials : Type := {
  username : option Json;
  password : option Json
}.

(** The callback of [auroraSecret.apply] that extracts the username and the
    password from the secret's JSON value. [!secret.secretString] holds for
    [undefined] and for the empty string. *)
Definition extract_credentials (cloud : Cloud) (secret : GetSecretVersionResult)
    : completion Credentials :=
  match secretString secret with
  | None => Throw "Secret string is empty"
  | Some text =>
      if String.eqb text ""
      then Throw "Secret string is empty"
      else
        match JSON_parse cloud text with
        | Throw e => Throw e
        | Normal secretJson =>
            match member secretJson "username" with
            | Throw e => Throw e
            | Normal u =>
                match member secretJson "password" with
                | Throw e => Throw e
                | Normal p => Normal {| username := u; password := p |}
                end
            end
        end
  end.

(** [credentials.username] and [credentials.password] on an [Output]: the
    property access is lifted into it. *)
Definition lifted (field : Credentials -> option Json)
    (credentials : Output Credentials) : Output (option Json) :=
  apply credentials (fun c => Resolved (field c)).

(** The variables the block [if (config.getBoolean("useMySQL") && vpc)]
    assigns. *)
Record Database : Type := {
  db_securityGroup : option AuroraSecurityGroup;
  db_lambdaVpcConfig : Output VpcConfig;
  db_auroraCluster : option AuroraServerless;
  db_credentials : option (Output Credentials)
}.

Definition database (config : Config) (cloud : Cloud) (vpc : option SimpleVpc)
    : Database :=
  match truthy (getBoolean config "useMySQL"), vpc with
  | true, Some vpc =>
      let securityGroup :=
        new_AuroraSecurityGroup cloud "lambda-test-aurora-security-group" vpc in
      let lambdaVpcConfig :=
        apply (all (publicSubnetIds (Constructs.vpc vpc))
                   (id (Constructs.securityGroup securityGroup)))
              (fun '(subnetIds, securityGroupId) =>
                 Resolved {| subnetIds := subnetIds;
                             securityGroupIds := [securityGroupId] |}) in
      let auroraCluster :=
        new_AuroraServerless cloud "laravel-test-aurora" vpc securityGroup in
      let auroraSecret :=
        apply (secretArn auroraCluster)
              (fun secretArn => getSecretVersion cloud secretArn) in
      let credentials :=
        apply auroraSecret (fun secret => settle (extract_credentials cloud secret)) in
      {| db_securityGroup := Some securityGroup;
         db_lambdaVpcConfig := lambdaVpcConfig;
         db_auroraCluster := Some auroraCluster;
         db_credentials := Some credentials |}
  | _, _ =>
      {| db_securityGroup := None;
         db_lambdaVpcConfig :=
           Output_create {| subnetIds := []; securityGroupIds := [] |};
         db_auroraCluster := None;
         db_credentials := None |}
  end.

(** The object literal [environment]. *)
Definition environment_of (bucket : Bucket) (auroraCluster : option AuroraServerless)
    (credentials : option (Output Credentials)) : gmap string Input :=
  {[ "FILESYSTEM_DISK" := Str "s3";
     "AWS_BUCKET" := Out (Constructs.bucket bucket);
     "DB_DATABASE" := Str "laravelTest";
     "DB_CONNECTION" := Str "mysql";
     "DB_HOST" := match auroraCluster with
                  | Some a => Out (endpoint a)
                  | None => Str ""
                  end;
     "DB_PORT" := Str "3306";
     "DB_USERNAME" := match credentials with
                      | Some c => OutAny (lifted username c)
                      | None => Str ""
                      end;
     "DB_PASSWORD" := match credentials with
                      | Some c => OutAny (lifted password c)
                      | None => Str ""
                      end ]}.

(** The entry the web application adds to the environment. *)
Definition webApp_override : gmap string Input := {[ "BREF_LOOP_MAX" := Num 250 ]}.

(** The environment argument of the web application:
    [{BREF_LOOP_MAX: 250, ...environment}]. *)
Definition webApp_environment (environment : gmap string Input) : gmap string Input :=
  object_spread webApp_override environment.

(** What the program has declared when the statement that creates the
    SQS worker has run: its variables and constants up to there. The
    scheduled triggers and the export statements that follow are in
    [Schedulers] and [Outputs]. *)
Record Stack : Type := {
  auroraCluster : option AuroraServerless;
  credentials : option (Output Credentials);
  securityGroup : option AuroraSecurityGroup;
  lambdaVpcConfig : Output VpcConfig;
  vpc : option SimpleVpc;
  bucket : Bucket;
  lambdaRole : LambdaRole;
  environment : gmap string Input;
  webApp : Output WebApp;
  consoleApp : Output ConsoleApp;
  sqsWorker : Output SqsWorker
}.

Definition program (config : Config) (cloud : Cloud) : Stack :=
  let vpc :=
    if truthy (getBoolean config "useMySQL") || truthy (getBoolean config "useVPC")
    then Some (new_SimpleVpc cloud "lambda-test-vpc" true true true 2 "10.0.0.0/16")
    else None in
  let db := database config cloud vpc in
  let securityGroup := db_securityGroup db in
  let lambdaVpcConfig := db_lambdaVpcConfig db in
  let auroraCluster := db_auroraCluster db in
  let credentials := db_credentials db in
  let bucket := new_Bucket cloud "bref-example-bucket" in
  let lambdaRole := new_LambdaRole "lambdaRole" in
  let lambdaRole := addPolicy lambdaRole "s3" (bucketPolicy bucket) in
  let lambdaRole := addPolicy lambdaRole "vpc" vpcPolicy in
  let environment := environment_of bucket auroraCluster credentials in
  let webApp :=
    apply lambdaVpcConfig (fun vpcConfig =>
      Resolved {| web_name := "laravel-test";
                  web_code := "../laravel";
                  web_role := lambdaRole;
                  web_environment := webApp_environment environment;
                  useOctane := getBoolean config "useOctane";
                  web_subnetIds := subnetIds vpcConfig;
                  web_securityGroupIds := securityGroupIds vpcConfig |}) in
  let consoleApp :=
    apply lambdaVpcConfig (fun vpcConfig =>
      Resolved {| console_name := "laravel-test-artisan";
                  console_code := "../laravel";
                  console_role := lambdaRole;
                  console_environment := environment;
                  console_subnetIds := subnetIds vpcConfig;
                  console_securityGroupIds := securityGroupIds vpcConfig |}) in
  let sqsWorker :=
    apply lambdaVpcConfig (fun vpcConfig =>
      Resolved {| worker_name := "laravel-test-worker";
                  worker_code := "../laravel";
                  worker_role := lambdaRole;
                  worker_environment := environment;
                  worker_subnetIds := subnetIds vpcConfig;
                  worker_securityGroupIds := securityGroupIds vpcConfig |}) in
  {| auroraCluster := auroraCluster;
     credentials := credentials;
     securityGroup := securityGroup;
     lambdaVpcConfig := lambdaVpcConfig;
     vpc := vpc;
     bucket := bucket;
     lambdaRole := lambdaRole;
     environment := environment;
     webApp := webApp;
     consoleApp := consoleApp;
     sqsWorker := sqsWorker |}.

End Index.

(** ** The stack program: the scheduled triggers

    The two blocks guarded by [useApiWarmer] and [useArtisanScheduler], as
    completions: each names its resources with a template literal over the
    identifier [stackName], which the file binds nowhere. *)

Module Schedulers.

Import Js Constructs.

(** [aws.cloudwatch.EventRule]: its logical name, its arguments, and the
    [name] and [arn] outputs the program reads back. *)
Record EventRule : Type := {
  rule_resource : string;
  description : string;
  scheduleExpression : string;
  rule_name : Output string;
  rule_arn : Output string
}.

(** [aws.cloudwatch.EventTarget] *)
Record EventTarget : Type := {
  target_resource : string;
  rule : Output string;
  arn : Output string;
  input : string
}.

(** [aws.lambda.Permission] *)
Record Permission : Type := {
  permission_resource : string;
  action : string;
  function : Output string;
  principal : string;
  sourceArn : Output string
}.

(** What the end of the program reads from outside the file: the outputs
    the provider gives an event rule of a given logical name, the [arn] and
    [name] of the lambda inside an application (the classes [WebApp] and
    [ConsoleApp] are not among the sources), and the file system's answer to
    [readFileSync]. *)
Record Host : Type := {
  events_name : string -> Output string;
  events_arn : string -> Output string;
  phpFunction_lambda_arn : WebApp -> Output string;
  phpFunction_lambda_name : WebApp -> Output string;
  phpFpmFunction_lambda_arn : ConsoleApp -> Output string;
  phpFpmFunction_lambda_name : ConsoleApp -> Output string;
  readFileSync : string -> completion string
}.

Definition new_EventRule (host : Host) (name description rate : string)
    : EventRule :=
  {| rule_resource := name;
     description := description;
     scheduleExpression := rate;
     rule_name := events_name host name;
     rule_arn := events_arn host name |}.

(** [s || fallback] for a [string | undefined]: [undefined] and the empty
    string are falsy. *)
Definition or_default (s : option string) (fallback : string) : string :=
  match s with
  | None => fallback
  | Some s => if String.eqb s "" then fallback else s
  end.

(** The double quote, as a one-character string. *)
Definition quote : string := String "034"%char EmptyString.

(** [JSON.stringify({warmer: true})] *)
Definition warmer_input : string := "{" ++ quote ++ "warmer" ++ quote ++ ":true}".

(** The string literal written with single quotes around [schedule:run] in
    double quotes. *)
Definition schedule_run_input : string := quote ++ "schedule:run" ++ quote.

(** Sequencing of completions: a throw skips what follows. *)
Definition and_then {A B} (c : completion A) (k : A -> completion B)
    : completion B :=
  match c with
  | Normal a => k a
  | Throw e => Throw e
  end.

(** The identifier [stackName]. No import, declaration or parameter of the
    file binds it and the runtime has no global of that name, so evaluating
    it throws a [ReferenceError]. *)
Definition stackName : completion string := Throw "stackName is not defined".

(** A template literal [`prefix${x}`]. *)
Definition template (prefix : string) (x : completion string) : completion string :=
  and_then x (fun value => Normal (String.append prefix value)).

(** The three resources one block declares. *)
Record Trigger : Type := {
  scheduler : EventRule;
  target : EventTarget;
  permission : Permission
}.

(** [if (config.getBoolean("useApiWarmer")) { ... }]: [None] when the block
    is skipped. *)
Definition apiWarmer (config : Index.Config) (host : Host)
    (webApp : Output WebApp) : completion (option Trigger) :=
  if Index.truthy (Index.getBoolean config "useApiWarmer")
  then
    let apiWarmRate := or_default (Index.get config "apiWarmRate") "rate(5 minutes)" in
    and_then (template "api-warmer-" stackName) (fun rule_id =>
    let apiWarmScheduler :=
      new_EventRule host rule_id "Schedule for keeping api warm" apiWarmRate in
    and_then (template "api-warmer-target-" stackName) (fun target_id =>
    let artisanSchedulerTarget :=
      {| target_resource := target_id;
         rule := rule_name apiWarmScheduler;
         arn := apply webApp (phpFunction_lambda_arn host);
         input := warmer_input |} in
    and_then (template "api-warmer-permission-" stackName) (fun permission_id =>
    let apiWarmSchedulerPermission :=
      {| permission_resource := permission_id;
         action := "lambda:InvokeFunction";
         function := apply webApp (phpFunction_lambda_name host);
         principal := "events.amazonaws.com";
         sourceArn := rule_arn apiWarmScheduler |} in
    Normal (Some {| scheduler := apiWarmScheduler;
                    target := artisanSchedulerTarget;
                    permission := apiWarmSchedulerPermission |}))))
  else Normal None.

(** [if (config.getBoolean("useArtisanScheduler")) { ... }] *)
Definition artisanScheduler (config : Index.Config) (host : Host)
    (consoleApp : Output ConsoleApp) : completion (option Trigger) :=
  if Index.truthy (Index.getBoolean config "useArtisanScheduler")
  then
    let scheduleRate :=
      or_default (Index.get config "artisanScheduleRate") "rate(1 minute)" in
    and_then (template "artisan-scheduler-" stackName) (fun rule_id =>
    let artisanScheduler :=
      new_EventRule host rule_id "Schedule for running artisan commands"
        scheduleRate in
    and_then (template "artisan-scheduler-target-" stackName) (fun target_id =>
    let artisanSchedulerTarget :=
      {| target_resource := target_id;
         rule := rule_name artisanScheduler;
         arn := apply consoleApp (phpFpmFunction_lambda_arn host);
         input := schedule_run_input |} in
    and_then (template "artisan-scheduler-permission-" stackName)
      (fun permission_id =>
    let artisanSchedulerPermission :=
      {| permission_resource := permission_id;
         action := "lambda:InvokeFunction";
         function := apply consoleApp (phpFpmFunction_lambda_name host);
         principal := "events.amazonaws.com";
         sourceArn := rule_arn artisanScheduler |} in
    Normal (Some {| scheduler := artisanScheduler;
                    target := artisanSchedulerTarget;
                    permission := artisanSchedulerPermission |}))))
  else Normal None.

End Schedulers.

(** ** The stack program: the export statements

    The module exports its values only when every statement before and
    after them has run: a throw in a trigger block or in [readFileSync]
    fails the program, and nothing is exported. The exports that read
    members of the absent classes ([apiUrl], the function names, the role's
    ARN, the queue's URL, the Octane flag) are left out. *)

Module Outputs.

Import Js Constructs.

Record Exports : Type := {
  bucketName : Output string;
  vpcId : Input;
  auroraClusterId : Input;
  auroraClusterEndpoint : Input;
  readme : string
}.

(** The export statements over the variables of the program. *)
Definition exported (stack : Index.Stack) (readme : string) : Exports :=
  {| bucketName := bucket_id (Index.bucket stack);
     vpcId := match Index.vpc stack with
              | Some v => Out (Constructs.vpcId (Constructs.vpc v))
              | None => Str ""
              end;
     auroraClusterId := match Index.auroraCluster stack with
                        | Some a => Out (cluster_id (Constructs.auroraCluster a))
                        | None => Str ""
                        end;
     auroraClusterEndpoint := match Index.auroraCluster stack with
                              | Some a => Out (endpoint a)
                              | None => Str ""
                              end;
     readme := readme |}.

(** The program from the trigger blocks to its last statement, after the
    declarations of [Index.program]. *)
Definition exports (config : Index.Config) (cloud : Cloud)
    (host : Schedulers.Host) : completion Exports :=
  let stack := Index.program config cloud in
  Schedulers.and_then
    (Schedulers.apiWarmer config host (Index.webApp stack)) (fun _ =>
  Schedulers.and_then
    (Schedulers.artisanScheduler config host (Index.consoleApp stack)) (fun _ =>
  Schedulers.and_then
    (Schedulers.readFileSync host "./Pulumi.README.md") (fun text =>
  Normal (exported stack text)))).

End Outputs.

(** * What the properties speak of *)

Section Vocabulary.

Import Js.

(** The elements of the array [layers] refers to when the constructor is
    entered; none when the caller passes no array. *)
Definition initial_layers (h : store) (layers : option ref) : list Value :=
  match layers with
  | Some r => read_array h r
  | None => []
  end.

(** The reference the caller passes denotes an array of the store. *)
Definition allocated (h : store) (layers : option ref) : Prop :=
  match layers with
  | Some r => r < length h
  | None => True
  end.

(** The store after [values] were pushed onto the array of [layers]; with no
    array passed, the constructor allocates one on the first push. *)
Definition pushed (h : store) (layers : option ref) (values : list Value) : store :=
  match layers, values with
  | Some r, _ => <[r := read_array h r ++ values]> h
  | None, [] => h
  | None, _ => h ++ [values]
  end.

(** The reference [this.layers] holds after the loop. *)
Definition final_ref (h : store) (layers : option ref) (requested : list string)
    : option ref :=
  match layers, requested with
  | Some r, _ => Some r
  | None, [] => None
  | None, _ => Some (length h)
  end.

(** The message of the error the loop throws for [layer]. *)
Definition not_found (layer : string) : string :=
  "Layer " ++ layer ++ " not found in brefLayers".

(** Modelled from the spec: the bounds of the target platform are in none of
    the sources. AWS Lambda takes a timeout of 1 to 900 seconds and a memory
    size of 128 to 10240 MB. *)
Definition within_platform_bounds (timeout memorySize : Z) : bool :=
  ((1 <=? timeout) && (timeout <=? 900) &&
   (128 <=? memorySize) && (memorySize <=? 10240))%Z.

(** A cloud in which every resource resolves, the secret store answers
    [payload] for every secret, and [JSON.parse] answers [parsed]. *)
Definition sample_cloud (payload : option string) (parsed : completion Json)
    : Constructs.Cloud :=
  {| Constructs.cloud_publicSubnetIds := Resolved ["subnet-a"; "subnet-b"];
     Constructs.cloud_vpcId := Resolved "vpc-1";
     Constructs.cloud_securityGroupId := Resolved "sg-1";
     Constructs.cloud_secretArn := Resolved "arn:secret";
     Constructs.cloud_endpoint := Resolved "db.example";
     Constructs.cloud_clusterId := Resolved "cluster-1";
     Constructs.cloud_bucket := Resolved "bucket-1";
     Constructs.cloud_bucketId := Resolved "bucket-1";
     Constructs.getSecretVersion :=
       fun _ => Resolved {| Constructs.secretString := payload |};
     Constructs.JSON_parse := fun _ => parsed |}.

(** A configuration that sets [useMySQL] and [useVPC] and nothing else. *)
Definition sample_config (useMySQL useVPC : option bool) : Index.Config :=
  {| Index.getBoolean := fun key =>
       if String.eqb key "useMySQL" then useMySQL
       else if String.eqb key "useVPC" then useVPC
       else None;
     Index.get := fun _ => None |}.

(** No character of [s] is a dot. *)
Fixpoint dot_free (s : string) : bool :=
  match s with
  | EmptyString => true
  | String c rest => negb (Ascii.eqb c "."%char) && dot_free rest
  end.

(** The names that pass the [in] test on the layer table: its three keys and
    the members of [Object.prototype]. *)
Definition accepted_names : list string :=
  ["php"; "console"; "fpm"] ++ Object_prototype.

(** A cloud whose subnet list, secret reference, secret lookup and JSON
    parser answer as given; every other output resolves. *)
Definition cloud_with (subnets : Output (list string)) (secret_arn : Output string)
    (secret : Output Constructs.GetSecretVersionResult)
    (parsed : completion Json) : Constructs.Cloud :=
  {| Constructs.cloud_publicSubnetIds := subnets;
     Constructs.cloud_vpcId := Resolved "vpc-1";
     Constructs.cloud_securityGroupId := Resolved "sg-1";
     Constructs.cloud_secretArn := secret_arn;
     Constructs.cloud_endpoint := Resolved "db.example";
     Constructs.cloud_clusterId := Resolved "cluster-1";
     Constructs.cloud_bucket := Resolved "bucket-1";
     Constructs.cloud_bucketId := Resolved "bucket-1";
     Constructs.getSecretVersion := fun _ => secret;
     Constructs.JSON_parse := fun _ => parsed |}.

(** A configuration in which the flags of [set] are [true] and no other key
    is set. *)
Definition flags_config (set : list string) : Index.Config :=
  {| Index.getBoolean := fun key =>
       if bool_decide (key ∈ set) then Some true else None;
     Index.get := fun _ => None |}.

(** A host in which every output resolves and the readme is readable. *)
Definition sample_host : Schedulers.Host :=
  {| Schedulers.events_name := fun name => Resolved name;
     Schedulers.events_arn := fun name => Resolved name;
     Schedulers.phpFunction_lambda_arn := fun _ => Resolved "arn:web";
     Schedulers.phpFunction_lambda_name := fun _ => Resolved "web";
     Schedulers.phpFpmFunction_lambda_arn := fun _ => Resolved "arn:console";
     Schedulers.phpFpmFunction_lambda_name := fun _ => Resolved "console";
     Schedulers.readFileSync := fun _ => Normal "# readme" |}.

End Vocabulary.

(** * Properties of [Function]'s constructor *)

Section FunctionFacts.

Import Js.

Lemma read_array_lookup (h : store) (r : ref) (a : list Value) :
  h !! r = Some a -> read_array h r = a.
Proof. unfold read_array. intros ->. reflexivity. Qed.

Lemma read_array_insert (h : store) (r : ref) (a : list Value) :
  r < length h -> read_array (<[r := a]> h) r = a.
Proof.
  intros Hr. apply read_array_lookup. now apply list_lookup_insert_eq.
Qed.

Lemma read_array_app (h : store) (a : list Value) :
  read_array (h ++ [a]) (length h) = a.
Proof.
  apply read_array_lookup. rewrite lookup_app_r by lia.
  now rewrite Nat.sub_diag.
Qed.

(** The loop over names that all pass the [in] test pushes the value of each
    name, in order, onto the one array [r]. *)
Lemma resolve_layers_some (table : gmap string string) (requested : list string) :
  Forall (fun layer => has_property table layer = true) requested ->
  forall (r : ref) (h : store), r < length h ->
    FunctionTs.resolve_layers table requested (Some r) h
    = (Normal (Some r),
       <[r := read_array h r ++ map (get_property table) requested]> h).
Proof.
  induction 1 as [|layer rest Hlayer _ IH]; intros r h Hr; simpl.
  - unfold ret. rewrite app_nil_r. f_equal. symmetry.
    destruct (lookup_lt_is_Some_2 h r Hr) as [a Ha].
    rewrite (read_array_lookup _ _ _ Ha). now apply list_insert_id.
  - unfold bind at 1. unfold ret at 1. rewrite Hlayer. simpl.
    unfold bind at 1. unfold push at 1.
    rewrite IH by (rewrite length_insert; exact Hr).
    rewrite read_array_insert by exact Hr.
    rewrite list_insert_insert_eq, <- app_assoc. reflexivity.
Qed.

(** With no array passed, the first iteration allocates it. *)
Lemma resolve_layers_none (table : gmap string string) (requested : list string) :
  Forall (fun layer => has_property table layer = true) requested ->
  forall h : store,
    FunctionTs.resolve_layers table requested None h
    = (Normal (final_ref h None requested),
       pushed h None (map (get_property table) requested)).
Proof.
  intros Hall h. destruct Hall as [|layer rest Hlayer Hrest]; simpl.
  - reflexivity.
  - unfold bind at 1. unfold alloc at 1. rewrite Hlayer. simpl.
    unfold bind at 1. unfold push at 1.
    rewrite resolve_layers_some;
      [| exact Hrest | rewrite length_insert, length_app; simpl; lia].
    rewrite read_array_app. simpl.
    rewrite read_array_insert by (rewrite length_app; simpl; lia).
    rewrite list_insert_insert_eq.
    f_equal. replace (length h) with (length h + 0) by lia.
    rewrite insert_app_r. reflexivity.
Qed.

Lemma resolve_layers_normal (table : gmap string string) (requested : list string)
    (layers : option ref) (h : store) :
  Forall (fun layer => has_property table layer = true) requested ->
  allocated h layers ->
  FunctionTs.resolve_layers table requested layers h
  = (Normal (final_ref h layers requested),
     pushed h layers (map (get_property table) requested)).
Proof.
  intros Hall Hr. destruct layers as [r|].
  - now apply resolve_layers_some.
  - now apply resolve_layers_none.
Qed.

(** The loop stops at the first name that fails the [in] test, whatever
    follows it and whatever the store holds. *)
Lemma resolve_layers_throw (table : gmap string string) (ok : list string)
    (bad : string) (rest : list string) :
  Forall (fun layer => has_property table layer = true) ok ->
  has_property table bad = false ->
  forall (layers : option ref) (h : store),
    fst (FunctionTs.resolve_layers table (ok ++ bad :: rest) layers h)
    = Throw (not_found bad).
Proof.
  intros Hok Hbad. induction Hok as [|layer ok Hlayer _ IH]; intros layers h; simpl.
  - unfold bind. destruct layers as [r|]; simpl; rewrite Hbad; reflexivity.
  - unfold bind at 1.
    destruct layers as [r|]; simpl; rewrite Hlayer; simpl;
      unfold bind at 1; unfold push at 1; apply IH.
Qed.

(** Every request is accepted as a whole or has a first rejected name. *)
Lemma first_rejected (table : gmap string string) (requested : list string) :
  Forall (fun layer => has_property table layer = true) requested \/
  exists ok bad rest,
    requested = ok ++ bad :: rest /\
    Forall (fun layer => has_property table layer = true) ok /\
    has_property table bad = false.
Proof.
  induction requested as [|layer requested IH].
  - left. constructor.
  - destruct (has_property table layer) eqn:Hlayer.
    + destruct IH as [Hall | (ok & bad & rest & -> & Hok & Hbad)].
      * left. now constructor.
      * right. exists (layer :: ok), bad, rest. repeat split; auto.
    + right. exists [], layer, requested. repeat split; auto.
Qed.

Lemma resolve_layers_returns (table : gmap string string) (requested : list string) :
  Forall (fun layer => has_property table layer = true) requested ->
  forall (layers : option ref) (h : store),
    exists (this_layers : option ref) (h' : store),
      FunctionTs.resolve_layers table requested layers h = (Normal this_layers, h').
Proof.
  induction 1 as [|layer rest Hlayer _ IH]; intros layers h; simpl.
  - now exists layers, h.
  - unfold bind at 1.
    destruct layers as [r|]; simpl; rewrite Hlayer; simpl;
      unfold bind at 1; unfold push at 1; apply IH.
Qed.

(** The keys of the object literal [this.brefLayers]. *)
Lemma brefLayers_table_keys (phpVersion layer : string) :
  is_Some (FunctionTs.brefLayers_table phpVersion !! layer) <->
  layer = "php" \/ layer = "console" \/ layer = "fpm".
Proof.
  unfold FunctionTs.brefLayers_table. split.
  - intros [arn Harn].
    destruct (decide (layer = "php")) as [->|Hphp]; [now left|].
    destruct (decide (layer = "console")) as [->|Hconsole]; [now right; left|].
    destruct (decide (layer = "fpm")) as [->|Hfpm]; [now right; right|].
    rewrite !lookup_insert_ne, lookup_singleton_ne in Harn by congruence.
    discriminate.
  - intros [-> | [-> | ->]]; eexists; reflexivity.
Qed.

(** A key of the table passes the [in] test and reads as its string. *)
Lemma registered_property (table : gmap string string) (layer arn : string) :
  table !! layer = Some arn ->
  has_property table layer = true /\ get_property table layer = VString arn.
Proof. unfold has_property, get_property. intros ->. now split. Qed.

(** The [in] test fails exactly for a name that is neither a key of the
    table nor a member of [Object.prototype]. *)
Lemma has_property_false (table : gmap string string) (layer : string) :
  has_property table layer = false <->
  table !! layer = None /\ layer ∉ Object_prototype.
Proof.
  unfold has_property, inherited. destruct (table !! layer) as [arn|].
  - split; [discriminate | intros [? _]; discriminate].
  - rewrite bool_decide_eq_false. tauto.
Qed.

Lemma registered_values (table : gmap string string)
    (requested arns : list string) :
  Forall2 (fun layer arn => table !! layer = Some arn) requested arns ->
  Forall (fun layer => has_property table layer = true) requested /\
  map (get_property table) requested = VString <$> arns.
Proof.
  induction 1 as [|layer arn requested arns Harn _ [IHp IHv]]; simpl.
  - split; [constructor | reflexivity].
  - destruct (registered_property _ _ _ Harn) as [Hp Hv].
    split; [now constructor | now rewrite Hv, IHv].
Qed.

(** What the constructor returns and leaves in the store when every
    requested name passes the [in] test. *)
Lemma constructor_normal (name code : string) (roleArn : Output string)
    (handler : string) (environment : option (gmap string Input))
    (phpVersion : option string) (brefLayers : option (list string))
    (layers : option ref) (timeout memorySize : option Z) (h : store) :
  let table :=
    FunctionTs.brefLayers_table (default functionDefaults.phpVersion phpVersion) in
  let requested := default [] brefLayers in
  let values := map (get_property table) requested in
  Forall (fun layer => has_property table layer = true) requested ->
  allocated h layers ->
  exists f : FunctionTs.Function,
    FunctionTs.constructor name code roleArn handler environment phpVersion
      brefLayers layers timeout memorySize h
    = (Normal f, pushed h layers values) /\
    FunctionTs.layers f = final_ref h layers requested /\
    aws_lambda.layers (FunctionTs.lambda f) = initial_layers h layers ++ values.
Proof.
  intros table requested values Hall Hr.
  unfold FunctionTs.constructor. fold table. fold requested.
  unfold bind at 1. rewrite (resolve_layers_normal _ _ _ _ Hall Hr).
  fold values. destruct layers as [r|]; simpl.
  - unfold bind, spread, ret. eexists. split; [reflexivity|]. simpl.
    split; [reflexivity|]. now apply read_array_insert.
  - subst values. destruct requested as [|layer rest]; simpl.
    + unfold bind, ret. eexists. repeat split; reflexivity.
    + unfold bind, spread, ret. eexists. split; [reflexivity|]. simpl.
      split; [reflexivity|]. apply read_array_app.
Qed.

(** The constructor throws for the first requested name that fails the [in]
    test, and returns no instance. *)
Lemma constructor_throws (name code : string) (roleArn : Output string)
    (handler : string) (environment : option (gmap string Input))
    (phpVersion : option string) (ok : list string) (bad : string)
    (rest : list string) (layers : option ref) (timeout memorySize : option Z)
    (h : store) :
  let table :=
    FunctionTs.brefLayers_table (default functionDefaults.phpVersion phpVersion) in
  Forall (fun layer => has_property table layer = true) ok ->
  has_property table bad = false ->
  fst (FunctionTs.constructor name code roleArn handler environment phpVersion
         (Some (ok ++ bad :: rest)) layers timeout memorySize h)
  = Throw (not_found bad).
Proof.
  intros table Hok Hbad. unfold FunctionTs.constructor. simpl default.
  fold table. unfold bind at 1.
  pose proof (resolve_layers_throw table ok bad rest Hok Hbad layers h) as Hthrow.
  destruct (FunctionTs.resolve_layers table (ok ++ bad :: rest) layers h)
    as [[this_layers|e] h']; simpl in Hthrow; [discriminate|].
  simpl. now inversion Hthrow.
Qed.

Lemma registered_arns (table : gmap string string) (requested : list string) :
  Forall (fun layer => is_Some (table !! layer)) requested ->
  exists arns : list string,
    Forall2 (fun layer arn => table !! layer = Some arn) requested arns.
Proof.
  induction 1 as [|layer requested [arn Harn] _ [arns IH]].
  - exists []. constructor.
  - exists (arn :: arns). now constructor.
Qed.

(** C3, at the input where the code departs from it: ["toString"] is no key
    of the layer table, yet the constructor throws nothing for the request
    [["toString"]] and declares a lambda whose one layer is the inherited
    member [Object.prototype.toString]. *)
Theorem constructor_accepts_inherited_name :
  FunctionTs.brefLayers_table functionDefaults.phpVersion !! "toString" = None /\
  exists f : FunctionTs.Function,
    fst (FunctionTs.constructor "laravel-test" "../laravel" (Resolved "role")
           "public/index.php" None None (Some ["toString"]) None None None [])
    = Normal f /\
    aws_lambda.layers (FunctionTs.lambda f) = [VInherited "toString"].
Proof.
  split; [reflexivity|].
  eexists. split; [vm_compute; reflexivity | reflexivity].
Qed.

(** C6: when every requested name is a key of the layer table, the
    constructor returns an instance, and the layers of its lambda hold, after
    the elements the caller's array had, the identifier of the i-th requested
    name at the i-th place: the order is the caller's. *)
Theorem constructor_preserves_requested_order (name code : string)
    (roleArn : Output string) (handler : string)
    (environment : option (gmap string Input)) (phpVersion : option string)
    (requested : list string) (layers : option ref)
    (timeout memorySize : option Z) (h : store) :
  allocated h layers ->
  Forall (fun layer =>
            is_Some (FunctionTs.brefLayers_table
                       (default functionDefaults.phpVersion phpVersion) !! layer))
         requested ->
  exists (f : FunctionTs.Function) (h' : store),
    FunctionTs.constructor name code roleArn handler environment phpVersion
      (Some requested) layers timeout memorySize h = (Normal f, h') /\
    length (aws_lambda.layers (FunctionTs.lambda f))
    = length (initial_layers h layers) + length requested /\
    forall (i : nat) (layer : string),
      requested !! i = Some layer ->
      exists arn : string,
        FunctionTs.brefLayers_table
          (default functionDefaults.phpVersion phpVersion) !! layer = Some arn /\
        aws_lambda.layers (FunctionTs.lambda f)
          !! (length (initial_layers h layers) + i) = Some (VString arn).
Proof.
  intros Hr Hkeys.
  destruct (registered_arns _ _ Hkeys) as [arns Harns].
  destruct (registered_values _ _ _ Harns) as [Hall Hvalues].
  destruct (constructor_normal name code roleArn handler environment phpVersion
              (Some requested) layers timeout memorySize h Hall Hr)
    as (f & Hf & _ & Hlayers).
  simpl in Hf, Hlayers. rewrite Hvalues in Hlayers.
  exists f. eexists. split; [exact Hf|]. rewrite Hlayers. split.
  - rewrite length_app, length_fmap. f_equal. symmetry.
    exact (Forall2_length _ _ _ Harns).
  - intros i layer Hi.
    destruct (Forall2_lookup_l _ _ _ _ _ Harns Hi) as (arn & Harn & Hlookup).
    exists arn. split; [exact Hlookup|].
    rewrite lookup_app_r by lia.
    replace (length (initial_layers h layers) + i
             - length (initial_layers h layers)) with i by lia.
    now rewrite list_lookup_fmap, Harn.
Qed.

(** The request [fpm], [console], [php] on an array that holds one custom
    layer. *)
Lemma constructor_preserves_requested_order_witness :
  exists (f : FunctionTs.Function) (h' : store),
    FunctionTs.constructor "laravel-test" "../laravel" (Resolved "role")
      "public/index.php" None None (Some ["fpm"; "console"; "php"]) (Some 0)
      None None [[VString "arn:custom"]] = (Normal f, h') /\
    length (aws_lambda.layers (FunctionTs.lambda f))
    = length (initial_layers [[VString "arn:custom"]] (Some 0))
      + length ["fpm"; "console"; "php"] /\
    forall (i : nat) (layer : string),
      ["fpm"; "console"; "php"] !! i = Some layer ->
      exists arn : string,
        FunctionTs.brefLayers_table (default functionDefaults.phpVersion None)
          !! layer = Some arn /\
        aws_lambda.layers (FunctionTs.lambda f)
          !! (length (initial_layers [[VString "arn:custom"]] (Some 0)) + i)
        = Some (VString arn).
Proof.
  apply (constructor_preserves_requested_order "laravel-test" "../laravel"
           (Resolved "role") "public/index.php" None None
           ["fpm"; "console"; "php"] (Some 0) None None [[VString "arn:custom"]]).
  - simpl. lia.
  - repeat constructor; eexists; reflexivity.
Defined.

(** C7, as the code has it: the constructor compares the timeout and the
    memory size with no bound. Whatever the two numbers are, it either
    returns an instance whose lambda carries exactly the numbers given (28
    and 1024 when left out), or throws for a requested layer name that fails
    the [in] test, and for no other reason. *)
Theorem constructor_checks_no_bound (name code : string)
    (roleArn : Output string) (handler : string)
    (environment : option (gmap string Input)) (phpVersion : option string)
    (brefLayers : option (list string)) (layers : option ref)
    (timeout memorySize : option Z) (h : store) :
  match fst (FunctionTs.constructor name code roleArn handler environment
               phpVersion brefLayers layers timeout memorySize h) with
  | Normal f =>
      aws_lambda.timeout (FunctionTs.lambda f) = default 28%Z timeout /\
      aws_lambda.memorySize (FunctionTs.lambda f)
      = default functionDefaults.memorySize memorySize
  | Throw e =>
      exists layer : string,
        layer ∈ default [] brefLayers /\
        has_property
          (FunctionTs.brefLayers_table
             (default functionDefaults.phpVersion phpVersion)) layer = false /\
        e = not_found layer
  end.
Proof.
  set (table := FunctionTs.brefLayers_table
                  (default functionDefaults.phpVersion phpVersion)).
  destruct (first_rejected table (default [] brefLayers))
    as [Hall | (ok & bad & rest & Hreq & Hok & Hbad)].
  - destruct (resolve_layers_returns table _ Hall layers h)
      as (this_layers & h' & Hloop).
    unfold FunctionTs.constructor. fold table. unfold bind at 1.
    rewrite Hloop. unfold bind, spread, ret.
    destruct this_layers; simpl; now split.
  - pose proof (constructor_throws name code roleArn handler environment
                  phpVersion ok bad rest layers timeout memorySize h Hok Hbad)
      as Hthrow.
    assert (Hsame : FunctionTs.constructor name code roleArn handler environment
                      phpVersion brefLayers layers timeout memorySize h
                    = FunctionTs.constructor name code roleArn handler environment
                      phpVersion (Some (ok ++ bad :: rest)) layers timeout
                      memorySize h).
    { unfold FunctionTs.constructor. simpl default at 6. now rewrite <- Hreq. }
    rewrite Hsame, Hthrow. exists bad. repeat split; [|exact Hbad].
    rewrite Hreq. apply elem_of_app. right. apply list_elem_of_here.
Qed.

(** C7 fails as stated: a timeout of 100000 seconds and a memory size of 1 MB
    are outside the platform's bounds, and the constructor returns an
    instance whose lambda carries both. *)
Lemma constructor_builds_out_of_bounds :
  within_platform_bounds 100000 1 = false /\
  exists f : FunctionTs.Function,
    fst (FunctionTs.constructor "laravel-test" "../laravel" (Resolved "role")
           "public/index.php" None None (Some ["fpm"]) None
           (Some 100000%Z) (Some 1%Z) [])
    = Normal f /\
    aws_lambda.timeout (FunctionTs.lambda f) = 100000%Z /\
    aws_lambda.memorySize (FunctionTs.lambda f) = 1%Z.
Proof.
  split; [reflexivity|].
  eexists. split; [vm_compute; reflexivity | split; reflexivity].
Qed.

(** C10: with a caller-supplied array [raw] and a non-empty request of names
    that are all keys of the layer table, the layers of the lambda are the
    elements of [raw] followed by the identifiers of the requested names, in
    that order; the array extended is the caller's own. *)
Theorem constructor_appends_after_raw_layers (name code : string)
    (roleArn : Output string) (handler : string)
    (environment : option (gmap string Input)) (phpVersion : option string)
    (requested arns : list string) (r : ref) (raw : list Value)
    (timeout memorySize : option Z) (h : store) :
  h !! r = Some raw ->
  requested <> [] ->
  Forall2 (fun layer arn =>
             FunctionTs.brefLayers_table
               (default functionDefaults.phpVersion phpVersion) !! layer
             = Some arn)
          requested arns ->
  exists (f : FunctionTs.Function) (h' : store),
    FunctionTs.constructor name code roleArn handler environment phpVersion
      (Some requested) (Some r) timeout memorySize h = (Normal f, h') /\
    aws_lambda.layers (FunctionTs.lambda f) = raw ++ (VString <$> arns) /\
    FunctionTs.layers f = Some r /\
    h' !! r = Some (raw ++ (VString <$> arns)).
Proof.
  intros Hraw _ Harns.
  destruct (registered_values _ _ _ Harns) as [Hall Hvalues].
  assert (Hr : allocated h (Some r)) by (simpl; eapply lookup_lt_Some; eauto).
  destruct (constructor_normal name code roleArn handler environment phpVersion
              (Some requested) (Some r) timeout memorySize h Hall Hr)
    as (f & Hf & Href & Hlayers).
  simpl in Hf, Href, Hlayers. rewrite Hvalues in Hf, Hlayers.
  rewrite (read_array_lookup _ _ _ Hraw) in Hf, Hlayers.
  exists f. eexists. split; [exact Hf|].
  repeat split; [exact Hlayers | exact Href |].
  now apply list_lookup_insert_eq.
Qed.

(** The request [fpm], [console] for PHP 8.3 on an array that holds one
    custom layer. *)
Lemma constructor_appends_after_raw_layers_witness :
  exists (f : FunctionTs.Function) (h' : store),
    FunctionTs.constructor "laravel-test" "../laravel" (Resolved "role")
      "public/index.php" None (Some "8.3") (Some ["fpm"; "console"]) (Some 0)
      None None [[VString "arn:custom"]] = (Normal f, h') /\
    aws_lambda.layers (FunctionTs.lambda f)
    = [VString "arn:custom"]
      ++ (VString <$> [FunctionTs.fpmLayer "8.3"; FunctionTs.consoleLayer]) /\
    FunctionTs.layers f = Some 0 /\
    h' !! 0 = Some ([VString "arn:custom"]
                    ++ (VString <$> [FunctionTs.fpmLayer "8.3";
                                     FunctionTs.consoleLayer])).
Proof.
  apply (constructor_appends_after_raw_layers "laravel-test" "../laravel"
           (Resolved "role") "public/index.php" None (Some "8.3")
           ["fpm"; "console"] [FunctionTs.fpmLayer "8.3"; FunctionTs.consoleLayer]
           0 [VString "arn:custom"] None None [[VString "arn:custom"]]).
  - reflexivity.
  - discriminate.
  - repeat constructor.
Defined.

End FunctionFacts.

(** * Properties of the stack program *)

Section StackFacts.

Import Js Constructs.

(** A condition on a flag holds exactly when the flag is set to [true]. *)
Lemma truthy_set (flag : option bool) :
  Index.truthy flag = true <-> flag = Some true.
Proof. destruct flag as [[|]|]; simpl; split; congruence. Qed.

Lemma truthy_unset (flag : option bool) :
  flag <> Some true -> Index.truthy flag = false.
Proof. destruct flag as [[|]|]; simpl; congruence. Qed.

(** The block guarded by [useMySQL && vpc] assigns its variables together. *)
Lemma database_created (config : Index.Config) (cloud : Cloud)
    (network : option SimpleVpc) :
  is_Some (Index.db_auroraCluster (Index.database config cloud network)) <->
  Index.getBoolean config "useMySQL" = Some true /\ is_Some network.
Proof.
  unfold Index.database. rewrite <- truthy_set.
  destruct (Index.truthy (Index.getBoolean config "useMySQL")),
    network as [v|]; simpl;
    (split; [intros [cluster Hcluster] | intros [Hflag [v' Hv']]]);
    try discriminate; eauto.
Qed.

(** C1: whatever the flags, the program creates the VPC exactly when
    [useVPC] or [useMySQL] is set; with neither set there is none. *)
Theorem vpc_created_iff (config : Index.Config) (cloud : Cloud) :
  (is_Some (Index.vpc (Index.program config cloud)) <->
   Index.getBoolean config "useVPC" = Some true \/
   Index.getBoolean config "useMySQL" = Some true) /\
  (Index.vpc (Index.program config cloud) = None <->
   Index.getBoolean config "useVPC" <> Some true /\
   Index.getBoolean config "useMySQL" <> Some true).
Proof.
  simpl. rewrite <- !truthy_set.
  destruct (Index.truthy (Index.getBoolean config "useMySQL")),
    (Index.truthy (Index.getBoolean config "useVPC")); simpl;
    (split; split);
    try (intros [? ?]); try (intros [?|?]); try intros ?;
    try discriminate; try congruence; eauto; try tauto.
Qed.

(** C2: whatever the flags, the Aurora cluster is created exactly when
    [useMySQL] is set and the VPC exists; its security group and its
    credentials are created exactly with it; and a cluster that exists was
    built in the VPC of the stack. *)
Theorem auroraCluster_created_iff (config : Index.Config) (cloud : Cloud) :
  let stack := Index.program config cloud in
  (is_Some (Index.auroraCluster stack) <->
   Index.getBoolean config "useMySQL" = Some true /\ is_Some (Index.vpc stack)) /\
  (is_Some (Index.securityGroup stack) <-> is_Some (Index.auroraCluster stack)) /\
  (is_Some (Index.credentials stack) <-> is_Some (Index.auroraCluster stack)) /\
  (forall cluster : AuroraServerless,
     Index.auroraCluster stack = Some cluster ->
     Index.vpc stack = Some (aurora_vpc cluster) /\
     Index.securityGroup stack = Some (aurora_group cluster)).
Proof.
  cbv zeta. unfold Index.program. cbn [Index.auroraCluster Index.vpc
    Index.securityGroup Index.credentials].
  split; [apply database_created|].
  unfold Index.database.
  destruct (Index.truthy (Index.getBoolean config "useMySQL")); simpl.
  - split; [|split]; [split; eauto | split; eauto |].
    intros cluster [= <-]. split; reflexivity.
  - destruct (Index.truthy (Index.getBoolean config "useVPC")); simpl;
      (split; [|split];
       [ split; intros [x Hx]; discriminate
       | split; intros [x Hx]; discriminate
       | intros cluster; discriminate ]).
Qed.



(** C8 fails as stated: with neither flag set the program creates no VPC,
    and the role still has the policy named [vpc] attached. *)
Lemma vpc_policy_attached_without_vpc :
  let stack :=
    Index.program (sample_config None None) (sample_cloud None (Normal JNull)) in
  Index.vpc stack = None /\ attached (Index.lambdaRole stack) "vpc" = true.
Proof. split; reflexivity. Qed.

(** C8, as the code has it: in every configuration the role has exactly the
    bucket policy under [s3] and the VPC policy under [vpc], in that order,
    whether or not a VPC was created. *)
Theorem lambdaRole_policies (config : Index.Config) (cloud : Cloud) :
  let stack := Index.program config cloud in
  policies (Index.lambdaRole stack)
  = [("s3", bucketPolicy (Index.bucket stack)); ("vpc", vpcPolicy)] /\
  attached (Index.lambdaRole stack) "s3" = true /\
  attached (Index.lambdaRole stack) "vpc" = true.
Proof. repeat split; reflexivity. Qed.

End StackFacts.

(** * The constructor: errors, the store, and the declared lambda *)

Section ConstructorEffects.

Import Js.

(** The store the loop leaves when it stops at a rejected name: what was
    pushed for the names before it stays in the array. *)
Lemma resolve_layers_throw_store (table : gmap string string) (ok : list string)
    (bad : string) (rest : list string) :
  Forall (fun layer => has_property table layer = true) ok ->
  has_property table bad = false ->
  forall (r : ref) (h : store), r < length h ->
    FunctionTs.resolve_layers table (ok ++ bad :: rest) (Some r) h
    = (Throw (not_found bad),
       <[r := read_array h r ++ map (get_property table) ok]> h).
Proof.
  intros Hok Hbad. induction Hok as [|layer ok Hlayer _ IH]; intros r h Hr; simpl.
  - unfold bind, ret, throw. rewrite Hbad. simpl. rewrite app_nil_r.
    f_equal. symmetry.
    destruct (lookup_lt_is_Some_2 h r Hr) as [a Ha].
    rewrite (read_array_lookup _ _ _ Ha). now apply list_insert_id.
  - unfold bind at 1. unfold ret at 1. rewrite Hlayer. simpl.
    unfold bind at 1. unfold push at 1.
    rewrite IH by (rewrite length_insert; exact Hr).
    rewrite read_array_insert by exact Hr.
    rewrite list_insert_insert_eq, <- app_assoc. reflexivity.
Qed.

(** The loop writes to one array only: the caller's, or the one it
    allocates past the end of the store. *)
Lemma resolve_layers_frame (table : gmap string string) (requested : list string) :
  forall (layers : option ref) (h : store) (other : ref),
    other < length h ->
    layers <> Some other ->
    snd (FunctionTs.resolve_layers table requested layers h) !! other
    = h !! other.
Proof.
  induction requested as [|layer rest IH]; intros layers h other Hother Hne; simpl.
  - reflexivity.
  - unfold bind at 1. destruct layers as [r|]; simpl.
    + destruct (has_property table layer); simpl; [|reflexivity].
      unfold bind at 1. unfold push at 1.
      rewrite IH by (rewrite ?length_insert; auto).
      apply list_lookup_insert_ne. congruence.
    + destruct (has_property table layer); simpl.
      * unfold bind at 1. unfold push at 1.
        rewrite IH;
          [| rewrite length_insert, length_app; simpl; lia
           | intros [= Heq]; lia ].
        rewrite list_lookup_insert_ne by lia.
        now apply lookup_app_l.
      * now apply lookup_app_l.
Qed.

(** After the loop the constructor only reads the store. *)
Lemma constructor_store (name code : string) (roleArn : Output string)
    (handler : string) (environment : option (gmap string Input))
    (phpVersion : option string) (brefLayers : option (list string))
    (layers : option ref) (timeout memorySize : option Z) (h : store) :
  snd (FunctionTs.constructor name code roleArn handler environment phpVersion
         brefLayers layers timeout memorySize h)
  = snd (FunctionTs.resolve_layers
           (FunctionTs.brefLayers_table
              (default functionDefaults.phpVersion phpVersion))
           (default [] brefLayers) layers h).
Proof.
  unfold FunctionTs.constructor. unfold bind at 1.
  destruct (FunctionTs.resolve_layers _ _ layers h) as [[[r|]|e] h'];
    reflexivity.
Qed.

(** X1: a requested name that is neither a key of the layer table nor a
    member of [Object.prototype] makes the constructor throw the error that
    names it, provided the names requested before it pass the [in] test; no
    instance and no lambda come back. *)
Theorem constructor_rejects_unknown_name (name code : string)
    (roleArn : Output string) (handler : string)
    (environment : option (gmap string Input)) (phpVersion : option string)
    (ok : list string) (bad : string) (rest : list string)
    (layers : option ref) (timeout memorySize : option Z) (h : store) :
  Forall (fun layer =>
            has_property
              (FunctionTs.brefLayers_table
                 (default functionDefaults.phpVersion phpVersion)) layer = true)
         ok ->
  FunctionTs.brefLayers_table (default functionDefaults.phpVersion phpVersion)
    !! bad = None ->
  bad ∉ Object_prototype ->
  fst (FunctionTs.constructor name code roleArn handler environment phpVersion
         (Some (ok ++ bad :: rest)) layers timeout memorySize h)
  = Throw ("Layer " ++ bad ++ " not found in brefLayers").
Proof.
  intros Hok Hkey Hproto.
  apply (constructor_throws name code roleArn handler environment phpVersion
           ok bad rest layers timeout memorySize h Hok).
  apply has_property_false. now split.
Qed.

(** The request [console], [runtime], [fpm]: [runtime] is no key of the
    table. *)
Lemma constructor_rejects_unknown_name_witness :
  fst (FunctionTs.constructor "laravel-test" "../laravel" (Resolved "role")
         "public/index.php" None None (Some (["console"] ++ "runtime" :: ["fpm"]))
         None None None [])
  = Throw ("Layer " ++ "runtime" ++ " not found in brefLayers").
Proof.
  apply (constructor_rejects_unknown_name "laravel-test" "../laravel"
           (Resolved "role") "public/index.php" None None ["console"] "runtime"
           ["fpm"] None None None []).
  - repeat constructor.
  - reflexivity.
  - apply (bool_decide_eq_false_1 ("runtime" ∈ Object_prototype)). reflexivity.
Defined.

Lemma constructor_default_request (name code : string) (roleArn : Output string)
    (handler : string) (environment : option (gmap string Input))
    (phpVersion : option string) (brefLayers : option (list string))
    (layers : option ref) (timeout memorySize : option Z) (h : store) :
  FunctionTs.constructor name code roleArn handler environment phpVersion
    brefLayers layers timeout memorySize h
  = FunctionTs.constructor name code roleArn handler environment phpVersion
      (Some (default [] brefLayers)) layers timeout memorySize h.
Proof. destruct brefLayers; reflexivity. Qed.

(** X2: the constructor throws exactly when some requested name is neither
    a key of the layer table nor a member of [Object.prototype]. *)
Theorem constructor_throws_iff (name code : string) (roleArn : Output string)
    (handler : string) (environment : option (gmap string Input))
    (phpVersion : option string) (brefLayers : option (list string))
    (layers : option ref) (timeout memorySize : option Z) (h : store) :
  (exists e : string,
     fst (FunctionTs.constructor name code roleArn handler environment
            phpVersion brefLayers layers timeout memorySize h) = Throw e) <->
  (exists layer : string,
     layer ∈ default [] brefLayers /\
     FunctionTs.brefLayers_table (default functionDefaults.phpVersion phpVersion)
       !! layer = None /\
     layer ∉ Object_prototype).
Proof.
  set (table := FunctionTs.brefLayers_table
                  (default functionDefaults.phpVersion phpVersion)).
  rewrite constructor_default_request.
  destruct (first_rejected table (default [] brefLayers))
    as [Hall | (ok & bad & rest & Hreq & Hok & Hbad)].
  - split.
    + intros [e He]. exfalso.
      destruct (resolve_layers_returns table _ Hall layers h)
        as (this_layers & h' & Hloop).
      unfold FunctionTs.constructor in He. simpl default in He.
      fold table in He. unfold bind at 1 in He. rewrite Hloop in He.
      destruct this_layers; discriminate.
    + intros (layer & Hin & Hkey & Hproto). exfalso.
      rewrite Forall_forall in Hall. specialize (Hall layer Hin).
      assert (Hfalse : has_property table layer = false)
        by (apply has_property_false; now split).
      congruence.
  - rewrite Hreq. split.
    + intros _. exists bad. apply has_property_false in Hbad as [Hkey Hproto].
      repeat split; auto. apply elem_of_app. right. apply list_elem_of_here.
    + intros _. exists (not_found bad).
      now apply (constructor_throws name code roleArn handler environment
                   phpVersion ok bad rest layers timeout memorySize h).
Qed.

(** X3: a constructor that throws has already written to the caller's
    array: the identifiers of the names requested before the rejected one
    stay appended to it. *)
Theorem constructor_throw_keeps_pushed (name code : string)
    (roleArn : Output string) (handler : string)
    (environment : option (gmap string Input)) (phpVersion : option string)
    (ok arns : list string) (bad : string) (rest : list string) (r : ref)
    (raw : list Value) (timeout memorySize : option Z) (h : store) :
  h !! r = Some raw ->
  Forall2 (fun layer arn =>
             FunctionTs.brefLayers_table
               (default functionDefaults.phpVersion phpVersion) !! layer
             = Some arn)
          ok arns ->
  has_property
    (FunctionTs.brefLayers_table (default functionDefaults.phpVersion phpVersion))
    bad = false ->
  FunctionTs.constructor name code roleArn handler environment phpVersion
    (Some (ok ++ bad :: rest)) (Some r) timeout memorySize h
  = (Throw ("Layer " ++ bad ++ " not found in brefLayers"),
     <[r := raw ++ (VString <$> arns)]> h).
Proof.
  intros Hraw Harns Hbad.
  destruct (registered_values _ _ _ Harns) as [Hok Hvalues].
  assert (Hr : r < length h) by (eapply lookup_lt_Some; eauto).
  unfold FunctionTs.constructor. simpl default. unfold bind at 1.
  rewrite (resolve_layers_throw_store _ ok bad rest Hok Hbad r h Hr).
  rewrite Hvalues, (read_array_lookup _ _ _ Hraw). reflexivity.
Qed.

(** The request [php], [nope] on an array that holds one custom layer. *)
Lemma constructor_throw_keeps_pushed_witness :
  FunctionTs.constructor "laravel-test" "../laravel" (Resolved "role")
    "public/index.php" None None (Some (["php"] ++ "nope" :: [])) (Some 0)
    None None [[VString "arn:custom"]]
  = (Throw ("Layer " ++ "nope" ++ " not found in brefLayers"),
     <[0 := [VString "arn:custom"]
            ++ (VString <$> [FunctionTs.phpLayer "8.2"])]>
       [[VString "arn:custom"]]).
Proof.
  apply (constructor_throw_keeps_pushed "laravel-test" "../laravel"
           (Resolved "role") "public/index.php" None None ["php"]
           [FunctionTs.phpLayer "8.2"] "nope" [] 0 [VString "arn:custom"]
           None None [[VString "arn:custom"]]).
  - reflexivity.
  - repeat constructor.
  - reflexivity.
Defined.

(** X4: whatever is requested and however the constructor ends, every array
    of the store other than the one passed as [layers] is left as it was. *)
Theorem constructor_frame (name code : string) (roleArn : Output string)
    (handler : string) (environment : option (gmap string Input))
    (phpVersion : option string) (brefLayers : option (list string))
    (layers : option ref) (timeout memorySize : option Z) (h : store)
    (other : ref) :
  other < length h ->
  layers <> Some other ->
  snd (FunctionTs.constructor name code roleArn handler environment phpVersion
         brefLayers layers timeout memorySize h) !! other
  = h !! other.
Proof.
  intros Hother Hne. rewrite constructor_store.
  now apply resolve_layers_frame.
Qed.

(** Two arrays in the store; the second is passed, the first is not. *)
Lemma constructor_frame_witness :
  snd (FunctionTs.constructor "laravel-test" "../laravel" (Resolved "role")
         "public/index.php" None None (Some ["fpm"; "nope"]) (Some 1)
         None None [[VString "arn:a"]; [VString "arn:b"]]) !! 0
  = [[VString "arn:a"]; [VString "arn:b"]] !! 0.
Proof.
  apply (constructor_frame "laravel-test" "../laravel" (Resolved "role")
           "public/index.php" None None (Some ["fpm"; "nope"]) (Some 1)
           None None [[VString "arn:a"]; [VString "arn:b"]] 0).
  - simpl. lia.
  - discriminate.
Defined.

(** X5: with no bref layer requested, the constructor cannot throw and
    writes nothing: [this.layers] is the caller's reference (or stays
    [undefined]), and the lambda gets the elements of the caller's array. *)
Theorem constructor_empty_request (name code : string) (roleArn : Output string)
    (handler : string) (environment : option (gmap string Input))
    (phpVersion : option string) (brefLayers : option (list string))
    (layers : option ref) (timeout memorySize : option Z) (h : store) :
  default [] brefLayers = [] ->
  exists f : FunctionTs.Function,
    FunctionTs.constructor name code roleArn handler environment phpVersion
      brefLayers layers timeout memorySize h = (Normal f, h) /\
    FunctionTs.layers f = layers /\
    aws_lambda.layers (FunctionTs.lambda f) = initial_layers h layers.
Proof.
  intros Hempty. unfold FunctionTs.constructor. rewrite Hempty. simpl.
  unfold bind, ret, spread.
  destruct layers as [r|]; simpl; eexists; repeat split; reflexivity.
Qed.

(** The default request on an array that holds one custom layer. *)
Lemma constructor_empty_request_witness :
  exists f : FunctionTs.Function,
    FunctionTs.constructor "laravel-test" "../laravel" (Resolved "role")
      "public/index.php" None None None (Some 0) None None
      [[VString "arn:custom"]] = (Normal f, [[VString "arn:custom"]]) /\
    FunctionTs.layers f = Some 0 /\
    aws_lambda.layers (FunctionTs.lambda f)
    = initial_layers [[VString "arn:custom"]] (Some 0).
Proof.
  apply (constructor_empty_request "laravel-test" "../laravel" (Resolved "role")
           "public/index.php" None None None (Some 0) None None
           [[VString "arn:custom"]]).
  reflexivity.
Defined.

(** X6: two instances built on one array share it: the lambda of the second
    also carries the identifiers the first construction pushed. *)
Theorem constructor_shares_callers_array (name1 code1 : string)
    (roleArn1 : Output string) (handler1 : string)
    (environment1 : option (gmap string Input)) (phpVersion1 : option string)
    (requested1 arns1 : list string) (timeout1 memorySize1 : option Z)
    (name2 code2 : string) (roleArn2 : Output string) (handler2 : string)
    (environment2 : option (gmap string Input)) (phpVersion2 : option string)
    (requested2 arns2 : list string) (timeout2 memorySize2 : option Z)
    (r : ref) (raw : list Value) (h : store) :
  h !! r = Some raw ->
  Forall2 (fun layer arn =>
             FunctionTs.brefLayers_table
               (default functionDefaults.phpVersion phpVersion1) !! layer
             = Some arn)
          requested1 arns1 ->
  Forall2 (fun layer arn =>
             FunctionTs.brefLayers_table
               (default functionDefaults.phpVersion phpVersion2) !! layer
             = Some arn)
          requested2 arns2 ->
  exists (f1 f2 : FunctionTs.Function) (h1 h2 : store),
    FunctionTs.constructor name1 code1 roleArn1 handler1 environment1 phpVersion1
      (Some requested1) (Some r) timeout1 memorySize1 h = (Normal f1, h1) /\
    FunctionTs.constructor name2 code2 roleArn2 handler2 environment2 phpVersion2
      (Some requested2) (Some r) timeout2 memorySize2 h1 = (Normal f2, h2) /\
    aws_lambda.layers (FunctionTs.lambda f1) = raw ++ (VString <$> arns1) /\
    aws_lambda.layers (FunctionTs.lambda f2)
    = raw ++ (VString <$> arns1) ++ (VString <$> arns2).
Proof.
  intros Hraw Harns1 Harns2.
  destruct (registered_values _ _ _ Harns1) as [Hall1 Hvalues1].
  destruct (registered_values _ _ _ Harns2) as [Hall2 Hvalues2].
  assert (Hr : allocated h (Some r)) by (simpl; eapply lookup_lt_Some; eauto).
  destruct (constructor_normal name1 code1 roleArn1 handler1 environment1
              phpVersion1 (Some requested1) (Some r) timeout1 memorySize1 h
              Hall1 Hr) as (f1 & Hf1 & _ & Hlayers1).
  simpl in Hf1, Hlayers1. rewrite Hvalues1 in Hf1, Hlayers1.
  rewrite (read_array_lookup _ _ _ Hraw) in Hf1, Hlayers1.
  set (h1 := <[r := raw ++ (VString <$> arns1)]> h) in *.
  assert (Hraw1 : h1 !! r = Some (raw ++ (VString <$> arns1)))
    by (apply list_lookup_insert_eq; exact Hr).
  assert (Hr1 : allocated h1 (Some r))
    by (simpl; eapply lookup_lt_Some; eauto).
  destruct (constructor_normal name2 code2 roleArn2 handler2 environment2
              phpVersion2 (Some requested2) (Some r) timeout2 memorySize2 h1
              Hall2 Hr1) as (f2 & Hf2 & _ & Hlayers2).
  simpl in Hf2, Hlayers2. rewrite Hvalues2 in Hf2, Hlayers2.
  rewrite (read_array_lookup _ _ _ Hraw1) in Hf2, Hlayers2.
  exists f1, f2, h1. eexists. split; [exact Hf1|]. split; [exact Hf2|].
  split; [exact Hlayers1|]. rewrite Hlayers2. now rewrite <- app_assoc.
Qed.

(** A web function and a worker built on one array of custom layers. *)
Lemma constructor_shares_callers_array_witness :
  exists (f1 f2 : FunctionTs.Function) (h1 h2 : store),
    FunctionTs.constructor "web" "../laravel" (Resolved "role")
      "public/index.php" None None (Some ["fpm"]) (Some 0) None None
      [[VString "arn:custom"]] = (Normal f1, h1) /\
    FunctionTs.constructor "worker" "../laravel" (Resolved "role")
      "worker.php" None None (Some ["php"]) (Some 0) None None h1
    = (Normal f2, h2) /\
    aws_lambda.layers (FunctionTs.lambda f1)
    = [VString "arn:custom"] ++ (VString <$> [FunctionTs.fpmLayer "8.2"]) /\
    aws_lambda.layers (FunctionTs.lambda f2)
    = [VString "arn:custom"] ++ (VString <$> [FunctionTs.fpmLayer "8.2"])
      ++ (VString <$> [FunctionTs.phpLayer "8.2"]).
Proof.
  apply (constructor_shares_callers_array "web" "../laravel" (Resolved "role")
           "public/index.php" None None ["fpm"] [FunctionTs.fpmLayer "8.2"]
           None None "worker" "../laravel" (Resolved "role") "worker.php" None
           None ["php"] [FunctionTs.phpLayer "8.2"] None None 0
           [VString "arn:custom"] [[VString "arn:custom"]]).
  - reflexivity.
  - repeat constructor.
  - repeat constructor.
Defined.

Lemma inherited_spec (layer : string) :
  inherited layer = true <-> layer ∈ Object_prototype.
Proof. unfold inherited. apply bool_decide_eq_true. Qed.

(** X7: whatever the PHP version, the [in] test of the loop accepts exactly
    fifteen names: the keys [php], [console] and [fpm] of the layer table and
    the twelve members of [Object.prototype]. *)
Theorem in_test_accepts (phpVersion layer : string) :
  has_property (FunctionTs.brefLayers_table phpVersion) layer = true <->
  layer ∈ accepted_names.
Proof.
  unfold accepted_names. rewrite elem_of_app.
  pose proof (brefLayers_table_keys phpVersion layer) as Hkeys.
  unfold has_property.
  destruct (FunctionTs.brefLayers_table phpVersion !! layer) as [arn|] eqn:Harn.
  - split; [intros _ | reflexivity]. left.
    destruct (proj1 Hkeys (ltac:(eexists; reflexivity))) as [-> | [-> | ->]];
      repeat constructor.
  - rewrite inherited_spec. split; [tauto|]. intros [Hkey | Hproto]; [|exact Hproto].
    exfalso. assert (Hsome : is_Some (@None string)).
    { apply Hkeys.
      repeat match type of Hkey with
             | _ ∈ _ :: _ => apply elem_of_cons in Hkey as [Hkey|Hkey]; [tauto|]
             end.
      now apply not_elem_of_nil in Hkey. }
    destruct Hsome as [x Hx]. discriminate.
Qed.

Lemma append_cons (c : ascii) (a b : string) :
  (String c a ++ b = String c (a ++ b))%string.
Proof. reflexivity. Qed.

Lemma append_assoc (a b c : string) :
  ((a ++ b) ++ c = a ++ b ++ c)%string.
Proof.
  induction a as [|x a IH]; [reflexivity|].
  now rewrite !append_cons, IH.
Qed.

Lemma replace_dot_dot_free (s : string) :
  dot_free s = true -> replace_dot s = s.
Proof.
  induction s as [|c s IH]; simpl; [reflexivity|].
  destruct (Ascii.eqb c "."%char); simpl; [discriminate|].
  intros Hs. now rewrite IH.
Qed.

Lemma replace_dot_first (major minor : string) :
  dot_free major = true ->
  replace_dot (major ++ "." ++ minor) = (major ++ minor)%string.
Proof.
  induction major as [|c major IH]; [reflexivity|].
  rewrite !append_cons. simpl.
  destruct (Ascii.eqb c "."%char); simpl; [discriminate|].
  intros Hmajor. f_equal. now apply IH.
Qed.

(** X8: for a version written [major.minor] with no dot in [major], the PHP
    and the FPM layer identifiers carry [major] and [minor] joined, with the
    first dot removed and every later dot of [minor] kept. *)
Theorem layer_arn_of_version (major minor : string) :
  dot_free major = true ->
  FunctionTs.phpLayer (major ++ "." ++ minor)
  = ("arn:aws:lambda:us-east-1:534081306603:layer:php-"
     ++ major ++ minor ++ ":68")%string /\
  FunctionTs.fpmLayer (major ++ "." ++ minor)
  = ("arn:aws:lambda:us-east-1:534081306603:layer:php-"
     ++ major ++ minor ++ "-fpm:68")%string.
Proof.
  intros Hmajor. unfold FunctionTs.phpLayer, FunctionTs.fpmLayer.
  rewrite (replace_dot_first _ _ Hmajor), !append_assoc.
  split; reflexivity.
Qed.

(** Version 8.2.1: only the first dot goes. *)
Lemma layer_arn_of_version_witness :
  FunctionTs.phpLayer ("8" ++ "." ++ "2.1")
  = ("arn:aws:lambda:us-east-1:534081306603:layer:php-"
     ++ "8" ++ "2.1" ++ ":68")%string /\
  FunctionTs.fpmLayer ("8" ++ "." ++ "2.1")
  = ("arn:aws:lambda:us-east-1:534081306603:layer:php-"
     ++ "8" ++ "2.1" ++ "-fpm:68")%string.
Proof.
  apply (layer_arn_of_version "8" "2.1"). reflexivity.
Defined.

(** X9: whenever the constructor returns, the lambda it declared agrees with
    the instance: same name, role, handler, code, environment, timeout and
    memory size, the custom runtime on x86_64 whatever the PHP version, and
    as layers a copy of the array [this.layers] refers to in the store the
    constructor leaves. *)
Theorem lambda_agrees_with_instance (name code : string)
    (roleArn : Output string) (handler : string)
    (environment : option (gmap string Input)) (phpVersion : option string)
    (brefLayers : option (list string)) (layers : option ref)
    (timeout memorySize : option Z) (h : store) :
  match FunctionTs.constructor name code roleArn handler environment phpVersion
          brefLayers layers timeout memorySize h with
  | (Normal f, h') =>
      aws_lambda.name (FunctionTs.lambda f) = FunctionTs.name f /\
      aws_lambda.role (FunctionTs.lambda f) = FunctionTs.roleArn f /\
      aws_lambda.handler (FunctionTs.lambda f) = FunctionTs.handler f /\
      aws_lambda.code (FunctionTs.lambda f) = FunctionTs.code f /\
      aws_lambda.environment (FunctionTs.lambda f) = FunctionTs.environment f /\
      aws_lambda.timeout (FunctionTs.lambda f) = FunctionTs.timeout f /\
      aws_lambda.memorySize (FunctionTs.lambda f) = FunctionTs.memorySize f /\
      aws_lambda.runtime (FunctionTs.lambda f) = "provided.al2" /\
      aws_lambda.architectures (FunctionTs.lambda f) = ["x86_64"] /\
      aws_lambda.layers (FunctionTs.lambda f)
      = initial_layers h' (FunctionTs.layers f)
  | (Throw _, _) => True
  end.
Proof.
  unfold FunctionTs.constructor. unfold bind at 1.
  destruct (FunctionTs.resolve_layers _ _ layers h) as [[[r|]|e] h'];
    simpl; [| |exact I]; repeat split; reflexivity.
Qed.

Lemma has_property_defined (table : gmap string string) (layer : string) :
  has_property table layer = true -> get_property table layer <> VUndefined.
Proof.
  unfold has_property, get_property.
  destruct (table !! layer); [discriminate|].
  intros ->. discriminate.
Qed.

(** X21: the constructor never pushes [undefined]: when it returns, the
    lambda's layers are the elements the caller's array had, followed by one
    value per requested name, none of them [undefined]. *)
Theorem constructor_never_pushes_undefined (name code : string)
    (roleArn : Output string) (handler : string)
    (environment : option (gmap string Input)) (phpVersion : option string)
    (brefLayers : option (list string)) (layers : option ref)
    (timeout memorySize : option Z) (h : store) :
  allocated h layers ->
  match fst (FunctionTs.constructor name code roleArn handler environment
               phpVersion brefLayers layers timeout memorySize h) with
  | Normal f =>
      exists values : list Value,
        aws_lambda.layers (FunctionTs.lambda f)
        = initial_layers h layers ++ values /\
        length values = length (default [] brefLayers) /\
        Forall (fun v => v <> VUndefined) values
  | Throw _ => True
  end.
Proof.
  intros Hr.
  set (table := FunctionTs.brefLayers_table
                  (default functionDefaults.phpVersion phpVersion)).
  destruct (first_rejected table (default [] brefLayers))
    as [Hall | (ok & bad & rest & Hreq & Hok & Hbad)].
  - destruct (constructor_normal name code roleArn handler environment
                phpVersion brefLayers layers timeout memorySize h Hall Hr)
      as (f & Hf & _ & Hlayers).
    rewrite Hf. cbn [fst]. eexists. split; [exact Hlayers|].
    split; [apply length_map|].
    apply Forall_map. eapply Forall_impl; [exact Hall|].
    intros layer. apply has_property_defined.
  - rewrite constructor_default_request, Hreq.
    now rewrite (constructor_throws name code roleArn handler environment
                   phpVersion ok bad rest layers timeout memorySize h Hok Hbad).
Qed.

(** The request [fpm], [toString] on no array. *)
Lemma constructor_never_pushes_undefined_witness :
  match fst (FunctionTs.constructor "laravel-test" "../laravel"
               (Resolved "role") "public/index.php" None None
               (Some ["fpm"; "toString"]) None None None []) with
  | Normal f =>
      exists values : list Value,
        aws_lambda.layers (FunctionTs.lambda f)
        = initial_layers [] None ++ values /\
        length values = length (default [] (Some ["fpm"; "toString"])) /\
        Forall (fun v => v <> VUndefined) values
  | Throw _ => True
  end.
Proof.
  apply (constructor_never_pushes_undefined "laravel-test" "../laravel"
           (Resolved "role") "public/index.php" None None
           (Some ["fpm"; "toString"]) None None None []).
  exact I.
Defined.

End ConstructorEffects.

(** * The stack program: network configuration, credentials, environment *)

Section StackEffects.

Import Js Constructs.

Lemma environment_DB_HOST (b : Bucket) (a : option AuroraServerless)
    (c : option (Output Index.Credentials)) :
  Index.environment_of b a c !! "DB_HOST"
  = Some (match a with
          | Some a => Out (endpoint a)
          | None => Str ""
          end).
Proof. reflexivity. Qed.

Lemma environment_DB_USERNAME (b : Bucket) (a : option AuroraServerless)
    (c : option (Output Index.Credentials)) :
  Index.environment_of b a c !! "DB_USERNAME"
  = Some (match c with
          | Some c => OutAny (Index.lifted Index.username c)
          | None => Str ""
          end).
Proof. reflexivity. Qed.

Lemma environment_DB_PASSWORD (b : Bucket) (a : option AuroraServerless)
    (c : option (Output Index.Credentials)) :
  Index.environment_of b a c !! "DB_PASSWORD"
  = Some (match c with
          | Some c => OutAny (Index.lifted Index.password c)
          | None => Str ""
          end).
Proof. reflexivity. Qed.

(** The environment of the stack is the literal over the stack's own bucket,
    cluster and credentials. *)
Lemma environment_of_stack (config : Index.Config) (cloud : Cloud) :
  Index.environment (Index.program config cloud)
  = Index.environment_of (Index.bucket (Index.program config cloud))
      (Index.auroraCluster (Index.program config cloud))
      (Index.credentials (Index.program config cloud)).
Proof. reflexivity. Qed.

(** What the guarded block assigns when [useMySQL] is set. *)
Lemma database_with_mysql (config : Index.Config) (cloud : Cloud) :
  Index.getBoolean config "useMySQL" = Some true ->
  Index.lambdaVpcConfig (Index.program config cloud)
  = apply (all (cloud_publicSubnetIds cloud) (cloud_securityGroupId cloud))
      (fun '(subnetIds, securityGroupId) =>
         Resolved {| Index.subnetIds := subnetIds;
                     Index.securityGroupIds := [securityGroupId] |}) /\
  Index.credentials (Index.program config cloud)
  = Some (apply (apply (cloud_secretArn cloud) (getSecretVersion cloud))
            (fun secret => settle (Index.extract_credentials cloud secret))) /\
  exists cluster : AuroraServerless,
    Index.auroraCluster (Index.program config cloud) = Some cluster /\
    endpoint cluster = cloud_endpoint cloud.
Proof.
  intros Hflag. apply truthy_set in Hflag.
  unfold Index.program, Index.database. rewrite Hflag. simpl.
  repeat split. eexists. split; reflexivity.
Qed.

(** What the guarded block leaves when [useMySQL] is not set. *)
Lemma database_without_mysql (config : Index.Config) (cloud : Cloud) :
  Index.getBoolean config "useMySQL" <> Some true ->
  Index.lambdaVpcConfig (Index.program config cloud)
  = Resolved {| Index.subnetIds := []; Index.securityGroupIds := [] |} /\
  Index.credentials (Index.program config cloud) = None /\
  Index.auroraCluster (Index.program config cloud) = None /\
  Index.securityGroup (Index.program config cloud) = None.
Proof.
  intros Hflag.
  unfold Index.program, Index.database. rewrite (truthy_unset _ Hflag).
  destruct (Index.truthy (Index.getBoolean config "useVPC")); simpl;
    repeat split.
Qed.

(** Each application is built inside [lambdaVpcConfig.apply]: resolved with
    the identifiers of the configuration, the one role and the environment,
    or rejected with the configuration's error. *)
Lemma applications_follow (config : Index.Config) (cloud : Cloud) :
  match Index.lambdaVpcConfig (Index.program config cloud) with
  | Resolved c =>
      exists (web : WebApp) (console : ConsoleApp) (worker : SqsWorker),
        Index.webApp (Index.program config cloud) = Resolved web /\
        Index.consoleApp (Index.program config cloud) = Resolved console /\
        Index.sqsWorker (Index.program config cloud) = Resolved worker /\
        (web_subnetIds web = Index.subnetIds c /\
         console_subnetIds console = Index.subnetIds c /\
         worker_subnetIds worker = Index.subnetIds c) /\
        (web_securityGroupIds web = Index.securityGroupIds c /\
         console_securityGroupIds console = Index.securityGroupIds c /\
         worker_securityGroupIds worker = Index.securityGroupIds c) /\
        (web_role web = Index.lambdaRole (Index.program config cloud) /\
         console_role console = Index.lambdaRole (Index.program config cloud) /\
         worker_role worker = Index.lambdaRole (Index.program config cloud)) /\
        (web_environment web = Index.webApp_environment (Index.environment (Index.program config cloud)) /\
         console_environment console = Index.environment (Index.program config cloud) /\
         worker_environment worker = Index.environment (Index.program config cloud))
  | Rejected e =>
      Index.webApp (Index.program config cloud) = Rejected e /\
      Index.consoleApp (Index.program config cloud) = Rejected e /\
      Index.sqsWorker (Index.program config cloud) = Rejected e
  end.
Proof.
  unfold Index.program.
  cbn [Index.lambdaVpcConfig Index.webApp Index.consoleApp Index.sqsWorker
       Index.lambdaRole Index.environment].
  destruct (Index.db_lambdaVpcConfig _) as [c|e]; cbn [apply].
  - do 3 eexists. repeat split; reflexivity.
  - repeat split.
Qed.

(** Each trigger block is skipped or throws at its first template literal. *)
Lemma apiWarmer_completion (config : Index.Config) (host : Schedulers.Host)
    (webApp : Output WebApp) :
  Schedulers.apiWarmer config host webApp
  = if Index.truthy (Index.getBoolean config "useApiWarmer")
    then Throw "stackName is not defined"
    else Normal None.
Proof.
  unfold Schedulers.apiWarmer.
  destruct (Index.truthy (Index.getBoolean config "useApiWarmer")); reflexivity.
Qed.

Lemma artisanScheduler_completion (config : Index.Config)
    (host : Schedulers.Host) (consoleApp : Output ConsoleApp) :
  Schedulers.artisanScheduler config host consoleApp
  = if Index.truthy (Index.getBoolean config "useArtisanScheduler")
    then Throw "stackName is not defined"
    else Normal None.
Proof.
  unfold Schedulers.artisanScheduler.
  destruct (Index.truthy (Index.getBoolean config "useArtisanScheduler"));
    reflexivity.
Qed.

(** How the program ends. *)
Lemma exports_completion (config : Index.Config) (cloud : Cloud)
    (host : Schedulers.Host) :
  Outputs.exports config cloud host
  = if Index.truthy (Index.getBoolean config "useApiWarmer")
       || Index.truthy (Index.getBoolean config "useArtisanScheduler")
    then Throw "stackName is not defined"
    else
      match Schedulers.readFileSync host "./Pulumi.README.md" with
      | Throw e => Throw e
      | Normal text => Normal (Outputs.exported (Index.program config cloud) text)
      end.
Proof.
  unfold Outputs.exports.
  rewrite apiWarmer_completion, artisanScheduler_completion.
  destruct (Index.truthy (Index.getBoolean config "useApiWarmer")),
    (Index.truthy (Index.getBoolean config "useArtisanScheduler"));
    reflexivity.
Qed.

(** A program that ran to its end had neither trigger flag set and could
    read the readme. *)
Lemma exports_normal (config : Index.Config) (cloud : Cloud)
    (host : Schedulers.Host) (x : Outputs.Exports) :
  Outputs.exports config cloud host = Normal x ->
  Index.getBoolean config "useApiWarmer" <> Some true /\
  Index.getBoolean config "useArtisanScheduler" <> Some true /\
  exists text : string,
    Schedulers.readFileSync host "./Pulumi.README.md" = Normal text /\
    x = Outputs.exported (Index.program config cloud) text.
Proof.
  rewrite exports_completion. rewrite <- !truthy_set.
  destruct (Index.truthy (Index.getBoolean config "useApiWarmer")),
    (Index.truthy (Index.getBoolean config "useArtisanScheduler"));
    simpl; try discriminate.
  destruct (Schedulers.readFileSync host "./Pulumi.README.md") as [text|e];
    [|discriminate].
  intros [= <-]. repeat split; try discriminate. now exists text.
Qed.

(** X10: in every configuration the environment has the same eight keys,
    and the five entries that do not depend on the database are the same:
    the S3 disk, the bucket's name output, and the database name, driver and
    port. *)
Theorem environment_keys (config : Index.Config) (cloud : Cloud) :
  let environment := Index.environment (Index.program config cloud) in
  (forall k : string,
     is_Some (environment !! k) <->
     k ∈ ["FILESYSTEM_DISK"; "AWS_BUCKET"; "DB_DATABASE"; "DB_CONNECTION";
          "DB_HOST"; "DB_PORT"; "DB_USERNAME"; "DB_PASSWORD"]) /\
  environment !! "FILESYSTEM_DISK" = Some (Str "s3") /\
  environment !! "AWS_BUCKET" = Some (Out (cloud_bucket cloud)) /\
  environment !! "DB_DATABASE" = Some (Str "laravelTest") /\
  environment !! "DB_CONNECTION" = Some (Str "mysql") /\
  environment !! "DB_PORT" = Some (Str "3306").
Proof.
  intros environment. subst environment. rewrite environment_of_stack.
  split; [|repeat split; reflexivity].
  intros k. rewrite <- elem_of_dom. unfold Index.environment_of.
  rewrite !dom_insert_L, dom_singleton_L.
  rewrite !elem_of_union, !elem_of_singleton, !elem_of_cons, elem_of_nil.
  tauto.
Qed.

(** X11: in every configuration, with a cluster [DB_USERNAME] and
    [DB_PASSWORD] are the fields lifted out of the stack's credentials, and
    without one they are the empty string; and whenever the program runs to
    its end, [DB_HOST] holds the very value it exports as
    [auroraClusterEndpoint]. *)
Theorem environment_follows_database (config : Index.Config) (cloud : Cloud) :
  let stack := Index.program config cloud in
  match Index.auroraCluster stack with
  | Some cluster =>
      exists c : Output Index.Credentials,
        Index.credentials stack = Some c /\
        Index.environment stack !! "DB_USERNAME"
        = Some (OutAny (Index.lifted Index.username c)) /\
        Index.environment stack !! "DB_PASSWORD"
        = Some (OutAny (Index.lifted Index.password c))
  | None =>
      Index.credentials stack = None /\
      Index.environment stack !! "DB_USERNAME" = Some (Str "") /\
      Index.environment stack !! "DB_PASSWORD" = Some (Str "")
  end /\
  forall (host : Schedulers.Host) (x : Outputs.Exports),
    Outputs.exports config cloud host = Normal x ->
    Index.environment stack !! "DB_HOST"
    = Some (Outputs.auroraClusterEndpoint x).
Proof.
  intros stack. subst stack. split.
  - rewrite environment_of_stack.
    rewrite environment_DB_USERNAME, environment_DB_PASSWORD.
    unfold Index.program, Index.database.
    cbn [Index.auroraCluster Index.credentials].
    destruct (Index.truthy (Index.getBoolean config "useMySQL")); simpl.
    + eexists. repeat split; reflexivity.
    + destruct (Index.truthy (Index.getBoolean config "useVPC")); simpl;
        repeat split; reflexivity.
  - intros host x Hx. apply exports_normal in Hx as (_ & _ & text & _ & ->).
    rewrite environment_of_stack, environment_DB_HOST. reflexivity.
Qed.

(** X12: with [useVPC] set and [useMySQL] not, the VPC is created with the
    identifier the provider gives it, but the network configuration stays
    the empty default: the three applications are built with no subnet and
    no security group, and no cluster exists. Whenever the program runs to
    its end, it exports the VPC's identifier as [vpcId]. *)
Theorem vpc_alone_attaches_nothing (config : Index.Config) (cloud : Cloud) :
  Index.getBoolean config "useVPC" = Some true ->
  Index.getBoolean config "useMySQL" <> Some true ->
  let stack := Index.program config cloud in
  (exists v : SimpleVpc,
     Index.vpc stack = Some v /\
     Constructs.vpcId (Constructs.vpc v) = cloud_vpcId cloud) /\
  (forall (host : Schedulers.Host) (x : Outputs.Exports),
     Outputs.exports config cloud host = Normal x ->
     Outputs.vpcId x = Out (cloud_vpcId cloud)) /\
  Index.auroraCluster stack = None /\
  exists (web : WebApp) (console : ConsoleApp) (worker : SqsWorker),
    Index.webApp stack = Resolved web /\
    Index.consoleApp stack = Resolved console /\
    Index.sqsWorker stack = Resolved worker /\
    web_subnetIds web = [] /\ web_securityGroupIds web = [] /\
    console_subnetIds console = [] /\ console_securityGroupIds console = [] /\
    worker_subnetIds worker = [] /\ worker_securityGroupIds worker = [].
Proof.
  intros Hvpc Hdb stack. subst stack.
  destruct (database_without_mysql config cloud Hdb) as (Hnet & _ & Hcluster & _).
  pose proof (applications_follow config cloud) as Happs.
  rewrite Hnet in Happs.
  destruct Happs as (web & console & worker & Hweb & Hconsole & Hworker
                     & (Hs1 & Hs2 & Hs3) & (Hg1 & Hg2 & Hg3) & _).
  assert (Hv : Index.vpc (Index.program config cloud)
               = Some (new_SimpleVpc cloud "lambda-test-vpc" true true true 2
                         "10.0.0.0/16")).
  { unfold Index.program. cbn [Index.vpc]. apply truthy_set in Hvpc.
    rewrite Hvpc, orb_true_r. reflexivity. }
  split; [|split; [|split; [exact Hcluster|]]].
  - eexists. split; [exact Hv | reflexivity].
  - intros host x Hx. apply exports_normal in Hx as (_ & _ & text & _ & ->).
    unfold Outputs.exported. cbn [Outputs.vpcId]. rewrite Hv. reflexivity.
  - exists web, console, worker. repeat split; assumption.
Qed.

(** [useVPC] set, [useMySQL] not set. *)
Lemma vpc_alone_attaches_nothing_witness :
  let cloud := sample_cloud None (Normal JNull) in
  let stack := Index.program (sample_config None (Some true)) cloud in
  (exists v : SimpleVpc,
     Index.vpc stack = Some v /\
     Constructs.vpcId (Constructs.vpc v) = cloud_vpcId cloud) /\
  (forall (host : Schedulers.Host) (x : Outputs.Exports),
     Outputs.exports (sample_config None (Some true)) cloud host = Normal x ->
     Outputs.vpcId x = Out (cloud_vpcId cloud)) /\
  Index.auroraCluster stack = None /\
  exists (web : WebApp) (console : ConsoleApp) (worker : SqsWorker),
    Index.webApp stack = Resolved web /\
    Index.consoleApp stack = Resolved console /\
    Index.sqsWorker stack = Resolved worker /\
    web_subnetIds web = [] /\ web_securityGroupIds web = [] /\
    console_subnetIds console = [] /\ console_securityGroupIds console = [] /\
    worker_subnetIds worker = [] /\ worker_securityGroupIds worker = [].
Proof.
  apply (vpc_alone_attaches_nothing (sample_config None (Some true))
           (sample_cloud None (Normal JNull))).
  - reflexivity.
  - discriminate.
Defined.

(** X13: with [useMySQL] set and the VPC's subnets and the security group's
    identifier resolved, each of the three applications is built with
    exactly those subnets and that one security group, with the one role of
    the stack; the console and the worker get the environment as it is, the
    web application the environment with its own entry merged in. *)
Theorem mysql_attaches_applications (config : Index.Config) (cloud : Cloud)
    (subnets : list string) (group : string) :
  Index.getBoolean config "useMySQL" = Some true ->
  cloud_publicSubnetIds cloud = Resolved subnets ->
  cloud_securityGroupId cloud = Resolved group ->
  let stack := Index.program config cloud in
  exists (web : WebApp) (console : ConsoleApp) (worker : SqsWorker),
    Index.webApp stack = Resolved web /\
    Index.consoleApp stack = Resolved console /\
    Index.sqsWorker stack = Resolved worker /\
    (web_subnetIds web = subnets /\ web_securityGroupIds web = [group]) /\
    (console_subnetIds console = subnets /\
     console_securityGroupIds console = [group]) /\
    (worker_subnetIds worker = subnets /\
     worker_securityGroupIds worker = [group]) /\
    (web_role web = Index.lambdaRole stack /\
     console_role console = Index.lambdaRole stack /\
     worker_role worker = Index.lambdaRole stack) /\
    (web_environment web = Index.webApp_environment (Index.environment stack) /\
     console_environment console = Index.environment stack /\
     worker_environment worker = Index.environment stack).
Proof.
  intros Hdb Hsubnets Hgroup stack. subst stack.
  destruct (database_with_mysql config cloud Hdb) as (Hnet & _).
  rewrite Hsubnets, Hgroup in Hnet. cbn [apply all] in Hnet.
  pose proof (applications_follow config cloud) as Happs.
  rewrite Hnet in Happs.
  destruct Happs as (web & console & worker & Hweb & Hconsole & Hworker
                     & (Hs1 & Hs2 & Hs3) & (Hg1 & Hg2 & Hg3) & Hroles & Henvs).
  exists web, console, worker. simpl in *. repeat split; tauto.
Qed.

(** [useMySQL] set, in a cloud where every output resolves. *)
Lemma mysql_attaches_applications_witness :
  let stack :=
    Index.program (sample_config (Some true) None)
      (sample_cloud None (Normal JNull)) in
  exists (web : WebApp) (console : ConsoleApp) (worker : SqsWorker),
    Index.webApp stack = Resolved web /\
    Index.consoleApp stack = Resolved console /\
    Index.sqsWorker stack = Resolved worker /\
    (web_subnetIds web = ["subnet-a"; "subnet-b"] /\
     web_securityGroupIds web = ["sg-1"]) /\
    (console_subnetIds console = ["subnet-a"; "subnet-b"] /\
     console_securityGroupIds console = ["sg-1"]) /\
    (worker_subnetIds worker = ["subnet-a"; "subnet-b"] /\
     worker_securityGroupIds worker = ["sg-1"]) /\
    (web_role web = Index.lambdaRole stack /\
     console_role console = Index.lambdaRole stack /\
     worker_role worker = Index.lambdaRole stack) /\
    (web_environment web = Index.webApp_environment (Index.environment stack) /\
     console_environment console = Index.environment stack /\
     worker_environment worker = Index.environment stack).
Proof.
  apply (mysql_attaches_applications (sample_config (Some true) None)
           (sample_cloud None (Normal JNull)) ["subnet-a"; "subnet-b"] "sg-1");
    reflexivity.
Defined.

(** X14: with [useMySQL] set, a rejected subnet list or a rejected security
    group identifier rejects the network configuration, and with it the web
    application, the console application and the worker: none of the three
    is built. *)
Theorem rejected_network_rejects_applications (config : Index.Config)
    (cloud : Cloud) :
  Index.getBoolean config "useMySQL" = Some true ->
  (exists e : string, cloud_publicSubnetIds cloud = Rejected e) \/
  (exists e : string, cloud_securityGroupId cloud = Rejected e) ->
  let stack := Index.program config cloud in
  exists e : string,
    Index.lambdaVpcConfig stack = Rejected e /\
    Index.webApp stack = Rejected e /\
    Index.consoleApp stack = Rejected e /\
    Index.sqsWorker stack = Rejected e /\
    (cloud_publicSubnetIds cloud = Rejected e \/
     cloud_securityGroupId cloud = Rejected e).
Proof.
  intros Hdb Hrejected stack. subst stack.
  destruct (database_with_mysql config cloud Hdb) as (Hnet & _).
  pose proof (applications_follow config cloud) as Happs.
  assert (Hcase : exists e : string,
             Index.lambdaVpcConfig (Index.program config cloud) = Rejected e /\
             (cloud_publicSubnetIds cloud = Rejected e \/
              cloud_securityGroupId cloud = Rejected e)).
  { rewrite Hnet.
    destruct (cloud_publicSubnetIds cloud) as [subnets|e1] eqn:Hs,
             (cloud_securityGroupId cloud) as [group|e2] eqn:Hg; simpl.
    - destruct Hrejected as [[e He] | [e He]]; discriminate.
    - exists e2. auto.
    - exists e1. auto.
    - exists e1. auto. }
  destruct Hcase as (e & He & Hwhich). rewrite He in Happs.
  destruct Happs as (Hweb & Hconsole & Hworker).
  exists e. repeat split; assumption.
Qed.

(** A subnet list the provider fails to deliver. *)
Lemma rejected_network_rejects_applications_witness :
  let stack :=
    Index.program (sample_config (Some true) None)
      (cloud_with (Rejected "no subnets") (Resolved "arn:secret")
         (Resolved {| secretString := None |}) (Normal JNull)) in
  exists e : string,
    Index.lambdaVpcConfig stack = Rejected e /\
    Index.webApp stack = Rejected e /\
    Index.consoleApp stack = Rejected e /\
    Index.sqsWorker stack = Rejected e /\
    (cloud_publicSubnetIds
       (cloud_with (Rejected "no subnets") (Resolved "arn:secret")
          (Resolved {| secretString := None |}) (Normal JNull)) = Rejected e \/
     cloud_securityGroupId
       (cloud_with (Rejected "no subnets") (Resolved "arn:secret")
          (Resolved {| secretString := None |}) (Normal JNull)) = Rejected e).
Proof.
  apply (rejected_network_rejects_applications (sample_config (Some true) None)
           (cloud_with (Rejected "no subnets") (Resolved "arn:secret")
              (Resolved {| secretString := None |}) (Normal JNull))).
  - reflexivity.
  - left. exists "no subnets". reflexivity.
Defined.

Lemma credentials_in_environment (config : Index.Config) (cloud : Cloud)
    (c : Output Index.Credentials) :
  Index.credentials (Index.program config cloud) = Some c ->
  Index.environment (Index.program config cloud) !! "DB_USERNAME"
  = Some (OutAny (Index.lifted Index.username c)) /\
  Index.environment (Index.program config cloud) !! "DB_PASSWORD"
  = Some (OutAny (Index.lifted Index.password c)).
Proof.
  intros Hc. rewrite environment_of_stack.
  rewrite environment_DB_USERNAME, environment_DB_PASSWORD, Hc. now split.
Qed.

(** The credentials of a stack with [useMySQL] set, from the secret the
    store answers. *)
Lemma credentials_of_secret (config : Index.Config) (cloud : Cloud)
    (arn : string) (secret : GetSecretVersionResult) :
  Index.getBoolean config "useMySQL" = Some true ->
  cloud_secretArn cloud = Resolved arn ->
  getSecretVersion cloud arn = Resolved secret ->
  Index.credentials (Index.program config cloud)
  = Some (settle (Index.extract_credentials cloud secret)).
Proof.
  intros Hdb Harn Hsecret.
  destruct (database_with_mysql config cloud Hdb) as (_ & Hc & _).
  rewrite Hc, Harn. cbn [apply]. rewrite Hsecret. reflexivity.
Qed.

(** X15: with [useMySQL] set and a secret whose payload parses to a JSON
    object, the credentials resolve to the object's [username] and
    [password] fields, and [DB_USERNAME] and [DB_PASSWORD] resolve to them;
    a field the object lacks resolves to [undefined] without an error. *)
Theorem credentials_from_object (config : Index.Config) (cloud : Cloud)
    (arn text : string) (fields : list (string * Json)) :
  Index.getBoolean config "useMySQL" = Some true ->
  cloud_secretArn cloud = Resolved arn ->
  getSecretVersion cloud arn = Resolved {| secretString := Some text |} ->
  text <> "" ->
  JSON_parse cloud text = Normal (JObject fields) ->
  let stack := Index.program config cloud in
  Index.credentials stack
  = Some (Resolved {| Index.username := last_field fields "username";
                      Index.password := last_field fields "password" |}) /\
  Index.environment stack !! "DB_USERNAME"
  = Some (OutAny (Resolved (last_field fields "username"))) /\
  Index.environment stack !! "DB_PASSWORD"
  = Some (OutAny (Resolved (last_field fields "password"))).
Proof.
  intros Hdb Harn Hsecret Htext Hparse stack. subst stack.
  assert (Hc : Index.credentials (Index.program config cloud)
               = Some (Resolved
                         {| Index.username := last_field fields "username";
                            Index.password := last_field fields "password" |})).
  { rewrite (credentials_of_secret _ _ _ _ Hdb Harn Hsecret).
    unfold Index.extract_credentials. cbn [secretString].
    apply String.eqb_neq in Htext. rewrite Htext, Hparse. reflexivity. }
  split; [exact Hc|]. exact (credentials_in_environment _ _ _ Hc).
Qed.

(** A secret with a username and no password. *)
Lemma credentials_from_object_witness :
  let stack :=
    Index.program (sample_config (Some true) None)
      (sample_cloud (Some "{...}")
         (Normal (JObject [("username", JString "admin")]))) in
  Index.credentials stack
  = Some (Resolved
            {| Index.username :=
                 last_field [("username", JString "admin")] "username";
               Index.password :=
                 last_field [("username", JString "admin")] "password" |}) /\
  Index.environment stack !! "DB_USERNAME"
  = Some (OutAny (Resolved
                    (last_field [("username", JString "admin")] "username"))) /\
  Index.environment stack !! "DB_PASSWORD"
  = Some (OutAny (Resolved
                    (last_field [("username", JString "admin")] "password"))).
Proof.
  apply (credentials_from_object (sample_config (Some true) None)
           (sample_cloud (Some "{...}")
              (Normal (JObject [("username", JString "admin")])))
           "arn:secret" "{...}" [("username", JString "admin")]);
    try reflexivity.
  discriminate.
Defined.

(** X16: with [useMySQL] set and a non-empty payload that [JSON.parse]
    refuses, the credentials are rejected with the parser's error, and so
    are [DB_USERNAME] and [DB_PASSWORD]; [DB_HOST] still is the cluster's
    endpoint. *)
Theorem malformed_secret_rejects_credentials (config : Index.Config)
    (cloud : Cloud) (arn text e : string) :
  Index.getBoolean config "useMySQL" = Some true ->
  cloud_secretArn cloud = Resolved arn ->
  getSecretVersion cloud arn = Resolved {| secretString := Some text |} ->
  text <> "" ->
  JSON_parse cloud text = Throw e ->
  let stack := Index.program config cloud in
  Index.credentials stack = Some (Rejected e) /\
  Index.environment stack !! "DB_USERNAME" = Some (OutAny (Rejected e)) /\
  Index.environment stack !! "DB_PASSWORD" = Some (OutAny (Rejected e)) /\
  Index.environment stack !! "DB_HOST" = Some (Out (cloud_endpoint cloud)).
Proof.
  intros Hdb Harn Hsecret Htext Hparse stack. subst stack.
  assert (Hc : Index.credentials (Index.program config cloud)
               = Some (Rejected e)).
  { rewrite (credentials_of_secret _ _ _ _ Hdb Harn Hsecret).
    unfold Index.extract_credentials. cbn [secretString].
    apply String.eqb_neq in Htext. rewrite Htext, Hparse. reflexivity. }
  split; [exact Hc|].
  destruct (credentials_in_environment _ _ _ Hc) as [Huser Hpass].
  split; [exact Huser|]. split; [exact Hpass|].
  destruct (database_with_mysql config cloud Hdb) as (_ & _ & cluster & Hcl & Hend).
  rewrite environment_of_stack, environment_DB_HOST, Hcl, Hend. reflexivity.
Qed.

(** A payload that is no JSON. *)
Lemma malformed_secret_rejects_credentials_witness :
  let cloud := sample_cloud (Some "admin:secret") (Throw "Unexpected token") in
  let stack := Index.program (sample_config (Some true) None) cloud in
  Index.credentials stack = Some (Rejected "Unexpected token") /\
  Index.environment stack !! "DB_USERNAME"
  = Some (OutAny (Rejected "Unexpected token")) /\
  Index.environment stack !! "DB_PASSWORD"
  = Some (OutAny (Rejected "Unexpected token")) /\
  Index.environment stack !! "DB_HOST" = Some (Out (cloud_endpoint cloud)).
Proof.
  apply (malformed_secret_rejects_credentials (sample_config (Some true) None)
           (sample_cloud (Some "admin:secret") (Throw "Unexpected token"))
           "arn:secret" "admin:secret" "Unexpected token");
    try reflexivity.
  discriminate.
Defined.

(** X17: with [useMySQL] set and a payload that parses to something other
    than an object, the secret [null] rejects the credentials with the
    [TypeError] of reading [username] off [null], while a boolean, a number,
    a string or an array resolves them with both fields [undefined]. *)
Theorem credentials_from_non_object (config : Index.Config) (cloud : Cloud)
    (arn text : string) (parsed : Json) :
  Index.getBoolean config "useMySQL" = Some true ->
  cloud_secretArn cloud = Resolved arn ->
  getSecretVersion cloud arn = Resolved {| secretString := Some text |} ->
  text <> "" ->
  JSON_parse cloud text = Normal parsed ->
  (forall fields, parsed <> JObject fields) ->
  Index.credentials (Index.program config cloud)
  = Some (match parsed with
          | JNull =>
              Rejected "Cannot read properties of null (reading 'username')"
          | _ => Resolved {| Index.username := None; Index.password := None |}
          end).
Proof.
  intros Hdb Harn Hsecret Htext Hparse Hshape.
  rewrite (credentials_of_secret _ _ _ _ Hdb Harn Hsecret).
  unfold Index.extract_credentials. cbn [secretString].
  apply String.eqb_neq in Htext. rewrite Htext, Hparse.
  destruct parsed as [|b|n|str|elements|fields]; try reflexivity.
  now destruct (Hshape fields).
Qed.

(** The payload [42]. *)
Lemma credentials_from_non_object_witness :
  Index.credentials
    (Index.program (sample_config (Some true) None)
       (sample_cloud (Some "42") (Normal (JNumber 42))))
  = Some (match JNumber 42 with
          | JNull =>
              Rejected "Cannot read properties of null (reading 'username')"
          | _ => Resolved {| Index.username := None; Index.password := None |}
          end).
Proof.
  apply (credentials_from_non_object (sample_config (Some true) None)
           (sample_cloud (Some "42") (Normal (JNumber 42))) "arn:secret" "42"
           (JNumber 42));
    try reflexivity; discriminate.
Defined.

(** X18: with [useMySQL] set, a secret reference that is rejected, or a
    secret store that rejects the lookup, rejects the credentials with that
    same error; the callback that parses the payload never runs, and the
    cluster is declared all the same. *)
Theorem rejected_secret_rejects_credentials (config : Index.Config)
    (cloud : Cloud) (e : string) :
  Index.getBoolean config "useMySQL" = Some true ->
  cloud_secretArn cloud = Rejected e \/
  (exists arn : string,
     cloud_secretArn cloud = Resolved arn /\
     getSecretVersion cloud arn = Rejected e) ->
  let stack := Index.program config cloud in
  Index.credentials stack = Some (Rejected e) /\
  Index.environment stack !! "DB_USERNAME" = Some (OutAny (Rejected e)) /\
  Index.environment stack !! "DB_PASSWORD" = Some (OutAny (Rejected e)) /\
  is_Some (Index.auroraCluster stack).
Proof.
  intros Hdb Hrejected stack. subst stack.
  destruct (database_with_mysql config cloud Hdb) as (_ & Hc & cluster & Hcl & _).
  assert (Hc' : Index.credentials (Index.program config cloud)
                = Some (Rejected e)).
  { rewrite Hc. destruct Hrejected as [Harn | (arn & Harn & Hsecret)].
    - rewrite Harn. reflexivity.
    - rewrite Harn. cbn [apply]. rewrite Hsecret. reflexivity. }
  split; [exact Hc'|].
  destruct (credentials_in_environment _ _ _ Hc') as [Huser Hpass].
  split; [exact Huser|]. split; [exact Hpass|].
  rewrite Hcl. eexists; reflexivity.
Qed.

(** A secret store that denies access. *)
Lemma rejected_secret_rejects_credentials_witness :
  let stack :=
    Index.program (sample_config (Some true) None)
      (cloud_with (Resolved []) (Resolved "arn:secret")
         (Rejected "AccessDenied") (Normal JNull)) in
  Index.credentials stack = Some (Rejected "AccessDenied") /\
  Index.environment stack !! "DB_USERNAME"
  = Some (OutAny (Rejected "AccessDenied")) /\
  Index.environment stack !! "DB_PASSWORD"
  = Some (OutAny (Rejected "AccessDenied")) /\
  is_Some (Index.auroraCluster stack).
Proof.
  apply (rejected_secret_rejects_credentials (sample_config (Some true) None)
           (cloud_with (Resolved []) (Resolved "arn:secret")
              (Rejected "AccessDenied") (Normal JNull)) "AccessDenied").
  - reflexivity.
  - right. exists "arn:secret". split; reflexivity.
Defined.

(** X22: how the program ends is decided by the flags and the readme
    alone. With [useApiWarmer] or [useArtisanScheduler] set it throws the
    [ReferenceError] of the unbound [stackName] and exports nothing; else,
    if the readme cannot be read, it throws that error; else it exports the
    bucket's identifier, the VPC's identifier when [useMySQL] or [useVPC] is
    set, the cluster's identifier and endpoint when [useMySQL] is set, and
    the empty string in place of what was not created. *)
Theorem exports_by_flags (config : Index.Config) (cloud : Cloud)
    (host : Schedulers.Host) :
  let useMySQL := Index.truthy (Index.getBoolean config "useMySQL") in
  let useVPC := Index.truthy (Index.getBoolean config "useVPC") in
  Outputs.exports config cloud host
  = if Index.truthy (Index.getBoolean config "useApiWarmer")
       || Index.truthy (Index.getBoolean config "useArtisanScheduler")
    then Throw "stackName is not defined"
    else
      match Schedulers.readFileSync host "./Pulumi.README.md" with
      | Throw e => Throw e
      | Normal text =>
          Normal
            {| Outputs.bucketName := cloud_bucketId cloud;
               Outputs.vpcId :=
                 if useMySQL || useVPC then Out (cloud_vpcId cloud) else Str "";
               Outputs.auroraClusterId :=
                 if useMySQL then Out (cloud_clusterId cloud) else Str "";
               Outputs.auroraClusterEndpoint :=
                 if useMySQL then Out (cloud_endpoint cloud) else Str "";
               Outputs.readme := text |}
      end.
Proof.
  cbv zeta. rewrite exports_completion.
  destruct (Index.truthy (Index.getBoolean config "useApiWarmer")
            || Index.truthy (Index.getBoolean config "useArtisanScheduler"));
    [reflexivity|].
  destruct (Schedulers.readFileSync host "./Pulumi.README.md") as [text|e];
    [|reflexivity].
  f_equal. unfold Outputs.exported, Index.program, Index.database.
  cbn [Index.vpc Index.auroraCluster Index.bucket].
  destruct (Index.truthy (Index.getBoolean config "useMySQL")),
    (Index.truthy (Index.getBoolean config "useVPC")); reflexivity.
Qed.

End StackEffects.

(** * The stack program: scheduled triggers *)

Section Triggers.

Import Js Constructs.

(** X19: no configuration declares the API warmer. With [useApiWarmer] set
    the block throws the [ReferenceError] of the unbound [stackName] at its
    first template literal, before any rule, target or permission exists,
    and the program exports nothing; with the flag unset the block is
    skipped. *)
Theorem apiWarmer_never_declared (config : Index.Config) (cloud : Cloud)
    (host : Schedulers.Host) (webApp : Output WebApp) :
  (forall t : Schedulers.Trigger,
     Schedulers.apiWarmer config host webApp <> Normal (Some t)) /\
  (Index.getBoolean config "useApiWarmer" = Some true ->
   Schedulers.apiWarmer config host webApp = Throw "stackName is not defined" /\
   Outputs.exports config cloud host = Throw "stackName is not defined") /\
  (Index.getBoolean config "useApiWarmer" <> Some true ->
   Schedulers.apiWarmer config host webApp = Normal None).
Proof.
  rewrite apiWarmer_completion, exports_completion.
  split; [|split].
  - intros t. destruct (Index.truthy _); discriminate.
  - intros Hflag. apply truthy_set in Hflag. now rewrite Hflag.
  - intros Hflag. now rewrite (truthy_unset _ Hflag).
Qed.

(** X20: no configuration declares the artisan scheduler. With
    [useArtisanScheduler] set the block throws the [ReferenceError] of the
    unbound [stackName] before any rule, target or permission exists, and
    the program exports nothing, whatever [useApiWarmer] is; with the flag
    unset the block is skipped. *)
Theorem artisanScheduler_never_declared (config : Index.Config) (cloud : Cloud)
    (host : Schedulers.Host) (consoleApp : Output ConsoleApp) :
  (forall t : Schedulers.Trigger,
     Schedulers.artisanScheduler config host consoleApp <> Normal (Some t)) /\
  (Index.getBoolean config "useArtisanScheduler" = Some true ->
   Schedulers.artisanScheduler config host consoleApp
   = Throw "stackName is not defined" /\
   Outputs.exports config cloud host = Throw "stackName is not defined") /\
  (Index.getBoolean config "useArtisanScheduler" <> Some true ->
   Schedulers.artisanScheduler config host consoleApp = Normal None).
Proof.
  rewrite artisanScheduler_completion, exports_completion.
  split; [|split].
  - intros t. destruct (Index.truthy _); discriminate.
  - intros Hflag. apply truthy_set in Hflag. rewrite Hflag, orb_true_r.
    now split.
  - intros Hflag. now rewrite (truthy_unset _ Hflag).
Qed.

End Triggers.

(** * The stack program: environment merge, empty secret, placeholders *)

Section Composition.

Import Js Constructs.







(** C9, on the code: with [useMySQL] and [useVPC] both unset or false the
    environment binds [DB_HOST], [DB_USERNAME] and [DB_PASSWORD] to the empty
    string, and a program that runs to its end exports the empty string as
    [vpcId], [auroraClusterId] and [auroraClusterEndpoint]. With
    [useApiWarmer] or [useArtisanScheduler] set it does not run to its end:
    it throws the [ReferenceError] of the unbound [stackName] before the
    export statements, and the three values are not exported at all. *)
Theorem placeholders_without_optional_components (config : Index.Config)
    (cloud : Cloud) (host : Schedulers.Host) :
  Index.getBoolean config "useMySQL" <> Some true ->
  Index.getBoolean config "useVPC" <> Some true ->
  let stack := Index.program config cloud in
  Index.environment stack !! "DB_HOST" = Some (Str "") /\
  Index.environment stack !! "DB_USERNAME" = Some (Str "") /\
  Index.environment stack !! "DB_PASSWORD" = Some (Str "") /\
  (forall x : Outputs.Exports,
     Outputs.exports config cloud host = Normal x ->
     Outputs.vpcId x = Str "" /\
     Outputs.auroraClusterId x = Str "" /\
     Outputs.auroraClusterEndpoint x = Str "") /\
  (Index.getBoolean config "useApiWarmer" = Some true \/
   Index.getBoolean config "useArtisanScheduler" = Some true ->
   Outputs.exports config cloud host = Throw "stackName is not defined").
Proof.
  intros Hdb Hvpc stack. subst stack.
  assert (Hstack : Index.vpc (Index.program config cloud) = None /\
                   Index.auroraCluster (Index.program config cloud) = None /\
                   Index.credentials (Index.program config cloud) = None).
  { unfold Index.program, Index.database.
    rewrite (truthy_unset _ Hdb), (truthy_unset _ Hvpc). now repeat split. }
  destruct Hstack as (Hnovpc & Hnocluster & Hnocredentials).
  rewrite environment_of_stack, environment_DB_HOST, environment_DB_USERNAME,
    environment_DB_PASSWORD, Hnocluster, Hnocredentials.
  split; [reflexivity|]. split; [reflexivity|]. split; [reflexivity|]. split.
  - intros x Hx. apply exports_normal in Hx as (_ & _ & text & _ & ->).
    unfold Outputs.exported.
    cbn [Outputs.vpcId Outputs.auroraClusterId Outputs.auroraClusterEndpoint].
    rewrite Hnovpc, Hnocluster. now repeat split.
  - intros Hflag. rewrite exports_completion.
    destruct Hflag as [Hflag | Hflag]; apply truthy_set in Hflag;
      rewrite Hflag, ?orb_true_r; reflexivity.
Qed.

(** [useApiWarmer] is the one flag set: nothing is exported. *)
Lemma placeholders_without_optional_components_witness :
  let config := flags_config ["useApiWarmer"] in
  let cloud := sample_cloud None (Normal JNull) in
  let stack := Index.program config cloud in
  Index.environment stack !! "DB_HOST" = Some (Str "") /\
  Index.environment stack !! "DB_USERNAME" = Some (Str "") /\
  Index.environment stack !! "DB_PASSWORD" = Some (Str "") /\
  (forall x : Outputs.Exports,
     Outputs.exports config cloud sample_host = Normal x ->
     Outputs.vpcId x = Str "" /\
     Outputs.auroraClusterId x = Str "" /\
     Outputs.auroraClusterEndpoint x = Str "") /\
  (Index.getBoolean config "useApiWarmer" = Some true \/
   Index.getBoolean config "useArtisanScheduler" = Some true ->
   Outputs.exports config cloud sample_host = Throw "stackName is not defined").
Proof.
  apply (placeholders_without_optional_components
           (flags_config ["useApiWarmer"]) (sample_cloud None (Normal JNull))
           sample_host);
    discriminate.
Defined.

End Composition.
